(** * Timeline data hooks of the patient chart: a shallow embedding

    The file follows [useTimelineData] and its two helpers, [parseTime]
    and [parseEntries], together with the sibling hooks
    [useAllTimelineData] and [usePatientPanels].

    - JavaScript strings are [string]; counters are [nat].
    - A JavaScript array that is written by index is a [list] of slots,
      where a slot records whether the position is a hole, an own
      [undefined], or an observation.
    - The [rows] object, used as a map from test name to row, is a
      [gmap string]; names are taken not to collide with the properties a
      plain object inherits from its prototype.
    - An object that is only ever walked with [Object.entries] is the
      association list of its entries, in iteration order.
    - A thrown [TypeError] is a constructor of the [Completion] type.
    - [useMemo] hands back the value of its callback for the current
      dependencies, and each callback reads nothing but the upstream
      triple and the hook's own arguments, so a hook is its callback
      applied to what the upstream hook returned. *)

From stdpp Require Import base option list strings gmap fin_maps.

Set Default Proof Using "Type".

(** ** Data model *)

(** [ObsRecord] of the common library, cut down to the fields the hooks
    read.  [members] is optional: only records that stand for a lab set
    carry it. *)
#[warnings="-register-all"] Inductive ObsRecord : Type :=
  mkObs {
    name : string;
    effectiveDateTime : string;
    obsUuid : string;
    members : option (list ObsRecord)
  }.

(** The three readings of a date that [parseTime] asks [dayjs] for:
    [dayjs(d).year().toString()], [dayjs(d).format('DD - MMM')] and
    [dayjs(d).format('HH:mm')]. *)
Class DayJs : Type :=
  {
    dayjs_year : string → string;
    dayjs_DD_MMM : string → string;
    dayjs_HH_mm : string → string
  }.

Module YearColumn.

Record t : Type := mk { year : string; size : nat }.

End YearColumn.

Module DayColumn.

Record t : Type := mk { year : string; day : string; size : nat }.

End DayColumn.

(** The day key of a day column, as [find] compares it. *)
Definition day_column_key (c : DayColumn.t) : string * string :=
  (DayColumn.year c, DayColumn.day c).

Record ParsedTime : Type :=
  mkParsedTime {
    yearColumns : list YearColumn.t;
    dayColumns : list DayColumn.t;
    timeColumns : list string;
    sortedTimes : list string
  }.

(** A position of a row.  [row[index] = member] on a short array leaves
    holes below [index]; spreading the array turns each hole into an own
    [undefined]. *)
Inductive Slot : Type :=
| Hole
| Undefined
| Item (obs : ObsRecord).

(** ** Exceptions *)

Inductive Thrown : Type :=
| TypeError.

Inductive Completion (A : Type) : Type :=
| Normal (a : A)
| Throw (e : Thrown).

Arguments Normal {A} a.
Arguments Throw {A} e.

Definition andThen {A B : Type} (c : Completion A) (k : A → Completion B)
    : Completion B :=
  match c with
  | Normal a => k a
  | Throw e => Throw e
  end.

Notation "x ←! c ; k" := (andThen c (λ x, k))
  (at level 20, c at level 100, k at level 200, right associativity,
   only parsing).

(** [l.forEach((x, index) => ...)] with the state the callback closes
    over passed along; a callback that throws ends the loop. *)
Fixpoint forEach {A St : Type} (callback : St → A → nat → Completion St)
    (l : list A) (index : nat) (s : St) : Completion St :=
  match l with
  | [] => Normal s
  | x :: l => s' ←! callback s x index; forEach callback l (S index) s'
  end.

(** ** parseTime *)

Module Columns.

(** [cols.find(p)] followed by [size++] on the object found: the first
    column that satisfies [p] is updated where it stands. *)
Definition bump_found {C : Type} (p : C → Prop) `{∀ c, Decision (p c)}
    (incr : C → C) (cols : list C) : option (list C) :=
  match list_find p cols with
  | Some (i, _) => Some (alter incr i cols)
  | None => None
  end.

Definition year_incr (c : YearColumn.t) : YearColumn.t :=
  {| YearColumn.year := YearColumn.year c;
     YearColumn.size := S (YearColumn.size c) |}.

Definition day_incr (c : DayColumn.t) : DayColumn.t :=
  {| DayColumn.year := DayColumn.year c;
     DayColumn.day := DayColumn.day c;
     DayColumn.size := S (DayColumn.size c) |}.

(** Lines 17-19. *)
Definition year_step (year : string) (cols : list YearColumn.t)
    : list YearColumn.t :=
  match bump_found (λ c, year = YearColumn.year c) year_incr cols with
  | Some cols' => cols'
  | None => cols ++ [ {| YearColumn.year := year; YearColumn.size := 1 |} ]
  end.

(** Lines 21-23. *)
Definition day_step (year date : string) (cols : list DayColumn.t)
    : list DayColumn.t :=
  match
    bump_found (λ c, date = DayColumn.day c ∧ year = DayColumn.year c)
      day_incr cols
  with
  | Some cols' => cols'
  | None =>
      cols ++ [ {| DayColumn.day := date;
                   DayColumn.year := year;
                   DayColumn.size := 1 |} ]
  end.

End Columns.

(** The three accumulators of [parseTime]. *)
Record TimeAcc : Type :=
  mkTimeAcc {
    acc_years : list YearColumn.t;
    acc_days : list DayColumn.t;
    acc_times : list string
  }.

Section ParseTime.
Context `{DayJs}.

(** The body of the [forEach] callback, lines 11-26. *)
Definition parseTime_step (acc : TimeAcc) (datetime : string) : TimeAcc :=
  let year := dayjs_year datetime in
  let date := dayjs_DD_MMM datetime in
  let time := dayjs_HH_mm datetime in
  {| acc_years := Columns.year_step year (acc_years acc);
     acc_days := Columns.day_step year date (acc_days acc);
     acc_times := acc_times acc ++ [time] |}.

Definition parseTime (sortedTimes : list string) : ParsedTime :=
  let acc := foldl parseTime_step (mkTimeAcc [] [] []) sortedTimes in
  {| yearColumns := acc_years acc;
     dayColumns := acc_days acc;
     timeColumns := acc_times acc;
     sortedTimes := sortedTimes |}.

(** The keys under which a timestamp is counted. *)
Definition year_key (datetime : string) : string := dayjs_year datetime.

Definition day_key (datetime : string) : string * string :=
  (dayjs_year datetime, dayjs_DD_MMM datetime).

End ParseTime.

(** ** parseEntries *)

(** [row[index] = v] on a JavaScript array: inside the array the position
    is overwritten, beyond its end the array grows to [index + 1] and the
    positions in between stay holes. *)
Definition array_set (row : list Slot) (index : nat) (v : Slot)
    : list Slot :=
  if decide (index < length row)
  then <[index := v]> row
  else row ++ replicate (index - length row) Hole ++ [v].

(** [[...row]]: the iterator reads every index below [length], so a hole
    comes out as [undefined]. *)
Definition spread_slot (s : Slot) : Slot :=
  match s with
  | Hole => Undefined
  | Undefined => Undefined
  | Item obs => Item obs
  end.

Definition spread (row : list Slot) : list Slot := spread_slot <$> row.

(** Lines 38-40 and 45-47:
    [const row = rows[name] || (rows[name] = []); row[index] = member]. *)
Definition place (rows : gmap string (list Slot)) (index : nat)
    (member : ObsRecord) : gmap string (list Slot) :=
  let row := default [] (rows !! name member) in
  <[name member := array_set row index (Item member)]> rows.

(** Lines 35-42. Reading [forEach] off an absent [members] throws. *)
Definition labSet_callback (rows : gmap string (list Slot))
    (entry : ObsRecord) (index : nat)
    : Completion (gmap string (list Slot)) :=
  match members entry with
  | None => Throw TypeError
  | Some members =>
      forEach (λ rows member _, Normal (place rows index member))
        members 0 rows
  end.

(** Lines 44-48. *)
Definition test_callback (rows : gmap string (list Slot))
    (member : ObsRecord) (index : nat)
    : Completion (gmap string (list Slot)) :=
  Normal (place rows index member).

Definition parseEntries (entries : option (list ObsRecord))
    (type : string) : Completion (gmap string (list Slot)) :=
  let entries := default [] entries in
  rows ←! (if decide (type = "LabSet")
           then forEach labSet_callback entries 0 ∅
           else if decide (type = "Test")
           then forEach test_callback entries 0 ∅
           else Normal ∅);
  Normal (spread <$> rows).


(** ** The hooks *)

Record Error : Type := mkError { message : string }.

Record PanelData : Type :=
  mkPanelData {
    uuid : string;
    type : string;
    entries : list ObsRecord
  }.

Module Fetch.

(** What [usePatientResultsData] returns. [sortedObs] is listed in the
    order of [Object.entries]. *)
Record t : Type :=
  mk {
    sortedObs : option (list (string * PanelData));
    loaded : bool;
    error : option Error
  }.

End Fetch.

Module Result.

(** [{ data, loaded, error }]; a result without an [error] key reads
    [undefined] there, as one with [error: undefined] does. *)
Record t (D : Type) : Type :=
  mk {
    data : D;
    loaded : bool;
    error : option Error
  }.

Arguments mk {D} data loaded error.
Arguments data {D} _.
Arguments loaded {D} _.
Arguments error {D} _.

End Result.

Inductive TimelineData : Type :=
| NoParsedTime
| Timeline (parsedTime : ParsedTime) (rowData : gmap string (list Slot))
    (panelName : string).

Inductive PanelsData : Type :=
| PanelsPlaceholder (placeholder : list TimelineData)
| PanelUuids (outData : gmap string string).

(** [useMemo(factory, deps)]: the value of [factory] for the current
    dependencies. *)
Definition useMemo {A D : Type} (factory : unit → A) (deps : D) : A :=
  factory tt.

Section Hooks.
Context `{DayJs}.
Variable usePatientResultsData : string → Fetch.t.

(** Lines 66-98. *)
Definition useTimelineData (patientUuid : string)
    (panelUuid : option string) : Completion (Result.t TimelineData) :=
  let up := usePatientResultsData patientUuid in
  let sortedObs := Fetch.sortedObs up in
  let loaded := Fetch.loaded up in
  let error := Fetch.error up in
  let timelineData :=
    useMemo (λ _,
      match sortedObs, loaded, error with
      | Some sortedObs, true, None =>
          match
            find (λ p, bool_decide (Some (uuid p.2) = panelUuid)) sortedObs
          with
          | None =>
              Normal {| Result.data := NoParsedTime;
                        Result.loaded := loaded;
                        Result.error :=
                          Some (mkError "panel data missing") |}
          | Some (panelName, panelData) =>
              let entries := entries panelData in
              let times := effectiveDateTime <$> entries in
              rowData ←! parseEntries (Some entries) (type panelData);
              Normal {| Result.data :=
                          Timeline (parseTime times) rowData panelName;
                        Result.loaded := true;
                        Result.error := None |}
          end
      | _, _, _ =>
          Normal {| Result.data := NoParsedTime;
                    Result.loaded := loaded;
                    Result.error := error |}
      end)
      (sortedObs, loaded, error, panelUuid) in
  timelineData.

(** Lines 129-136. *)
Definition allTimelineData_callback (outData : list TimelineData)
    (ob : string * PanelData) (_ : nat) : Completion (list TimelineData) :=
  let '(panelName, panelData) := ob in
  let entries := entries panelData in
  let times := effectiveDateTime <$> entries in
  rowData ←! parseEntries (Some entries) (type panelData);
  Normal (outData ++ [Timeline (parseTime times) rowData panelName]).

(** Lines 109-145. *)
Definition useAllTimelineData (patientUuid : string)
    (panelUuid : option string)
    : Completion (Result.t (list TimelineData)) :=
  let up := usePatientResultsData patientUuid in
  let sortedObs := Fetch.sortedObs up in
  let loaded := Fetch.loaded up in
  let error := Fetch.error up in
  let timelineData :=
    useMemo (λ _,
      match sortedObs, loaded, error with
      | Some sortedObs, true, None =>
          let obs := sortedObs in
          outData ←! forEach allTimelineData_callback obs 0 [];
          Normal {| Result.data := outData;
                    Result.loaded := true;
                    Result.error := None |}
      | _, _, _ =>
          Normal {| Result.data := [NoParsedTime];
                    Result.loaded := loaded;
                    Result.error := error |}
      end)
      (sortedObs, loaded, error) in
  timelineData.

(** Lines 156-173. *)
Definition usePatientPanels (patientUuid : string)
    : Completion (Result.t PanelsData) :=
  let up := usePatientResultsData patientUuid in
  let sortedObs := Fetch.sortedObs up in
  let loaded := Fetch.loaded up in
  let error := Fetch.error up in
  let panels :=
    useMemo (λ _,
      match sortedObs, loaded, error with
      | Some sortedObs, true, None =>
          outData ←!
            forEach
              (λ outData kv _, Normal (<[kv.1 := uuid kv.2]> outData))
              sortedObs 0 ∅;
          Normal {| Result.data := PanelUuids outData;
                    Result.loaded := true;
                    Result.error := None |}
      | _, _, _ =>
          Normal {| Result.data := PanelsPlaceholder [NoParsedTime];
                    Result.loaded := loaded;
                    Result.error := error |}
      end)
      (sortedObs, loaded, error) in
  panels.

End Hooks.

(** ** A reading of dayjs for running examples

    Local ISO-8601 strings of the form [YYYY-MM-DDTHH:mm], read by
    position, with the English month abbreviations dayjs uses by
    default. *)

Module IsoDayJs.

Definition month_abbr (mm : string) : string :=
  match mm with
  | "01" => "Jan" | "02" => "Feb" | "03" => "Mar" | "04" => "Apr"
  | "05" => "May" | "06" => "Jun" | "07" => "Jul" | "08" => "Aug"
  | "09" => "Sep" | "10" => "Oct" | "11" => "Nov" | "12" => "Dec"
  | _ => "Invalid Date"
  end.

Definition year (datetime : string) : string := String.substring 0 4 datetime.

Definition DD_MMM (datetime : string) : string :=
  String.substring 8 2 datetime +:+ " - "
    +:+ month_abbr (String.substring 5 2 datetime).

Definition HH_mm (datetime : string) : string := String.substring 11 5 datetime.

Definition iso_dayjs : DayJs :=
  {| dayjs_year := year; dayjs_DD_MMM := DD_MMM; dayjs_HH_mm := HH_mm |}.

End IsoDayJs.

(** ** Counting by key

    What the two column lists of [parseTime] hold, said without the loop:
    one column per distinct key, in the order in which the keys first
    occur, with the number of occurrences as its size. *)

Section Tally.
Context {K : Type} `{EqDecision K}.
Implicit Types (k : K) (ks : list K) (cols : list (K * nat)).

Fixpoint first_occurrences ks : list K :=
  match ks with
  | [] => []
  | k :: ks => k :: filter (λ k', k' ≠ k) (first_occurrences ks)
  end.

Definition occurrences k ks : nat := length (filter (λ k', k' = k) ks).

Definition merged ks : list (K * nat) :=
  (λ k, (k, occurrences k ks)) <$> first_occurrences ks.

(** The rule in the words of the specification: if a column with an
    equal key exists anywhere in the list its size goes up by one,
    otherwise a column of size 1 is appended. *)
Definition find_or_create k cols : list (K * nat) :=
  if decide (k ∈ cols.*1)
  then (λ c, if decide (c.1 = k) then (c.1, S c.2) else c) <$> cols
  else cols ++ [(k, 1)].

Definition scan ks : list (K * nat) :=
  foldl (λ cols k, find_or_create k cols) [] ks.

(** The rule in the shape of the code: [find] returns the first match,
    and that one object is incremented. *)
Definition find_first_or_push k cols : list (K * nat) :=
  match Columns.bump_found (λ c, k = c.1) (prod_map id S) cols with
  | Some cols' => cols'
  | None => cols ++ [(k, 1)]
  end.

End Tally.

Definition year_view (c : YearColumn.t) : string * nat :=
  (YearColumn.year c, YearColumn.size c).

Definition year_column (c : string * nat) : YearColumn.t :=
  {| YearColumn.year := c.1; YearColumn.size := c.2 |}.

Definition day_view (c : DayColumn.t) : (string * string) * nat :=
  ((DayColumn.year c, DayColumn.day c), DayColumn.size c).

Definition day_column (c : (string * string) * nat) : DayColumn.t :=
  {| DayColumn.year := c.1.1; DayColumn.day := c.1.2; DayColumn.size := c.2 |}.

(** ** What a row holds

    Both kinds of panel hand [parseEntries] one group of observations per
    top-level index: the entry itself for a test, its members for a lab
    set.  Within a group a later observation of a name overwrites an
    earlier one. *)







(** The loops of [parseEntries] without the exceptions. *)
Definition place_all (index : nat) (group : list ObsRecord)
    (rows : gmap string (list Slot)) : gmap string (list Slot) :=
  foldl (λ rows member, place rows index member) rows group.

Fixpoint place_groups (groups : list (list ObsRecord)) (index : nat)
    (rows : gmap string (list Slot)) : gmap string (list Slot) :=
  match groups with
  | [] => rows
  | group :: groups =>
      place_groups groups (S index) (place_all index group rows)
  end.


(** ** Sample data *)

Module Sample.

Definition times : list string :=
  ["2023-01-05T08:00"; "2023-01-05T09:30"; "2023-06-20T10:00"].

Definition leaf (n datetime : string) : ObsRecord :=
  {| name := n; effectiveDateTime := datetime; obsUuid := "obs-" +:+ n;
     members := None |}.

Definition labSet (datetime : string) (ms : list ObsRecord) : ObsRecord :=
  {| name := "Panel"; effectiveDateTime := datetime; obsUuid := "set";
     members := Some ms |}.

(** Five lab sets; glucose is measured in the second and the fifth. *)
Definition labSets : list ObsRecord :=
  [ labSet "2023-01-05T08:00" [leaf "Sodium" "2023-01-05T08:00"];
    labSet "2023-01-05T09:30"
      [leaf "Glucose" "2023-01-05T09:30"; leaf "Sodium" "2023-01-05T09:30"];
    labSet "2023-02-11T10:00" [];
    labSet "2023-06-20T10:00" [leaf "Potassium" "2023-06-20T10:00"];
    labSet "2023-06-21T07:15" [leaf "Glucose" "2023-06-21T07:15"] ].

(** Two tests with different names. *)
Definition tests : list ObsRecord :=
  [ leaf "Sodium" "2023-01-05T08:00"; leaf "Glucose" "2023-01-05T09:30" ].

(** An upstream hook: one patient is loaded with two panels, one failed
    to load, the others are still loading. *)
Definition fetch (patientUuid : string) : Fetch.t :=
  if decide (patientUuid = "patient-1")
  then {| Fetch.sortedObs :=
            Some [ ("Chemistry", mkPanelData "uuid-chemistry" "LabSet" labSets);
                   ("Tests", mkPanelData "uuid-tests" "Test" tests) ];
          Fetch.loaded := true;
          Fetch.error := None |}
  else if decide (patientUuid = "patient-2")
  then {| Fetch.sortedObs := None;
          Fetch.loaded := true;
          Fetch.error := Some (mkError "Request failed") |}
  else {| Fetch.sortedObs := None;
          Fetch.loaded := false;
          Fetch.error := None |}.

End Sample.

(** ** Column spans

    A header row built from columns shows the key of a column above as
    many time columns as its [size] says. *)

Definition expand {K : Type} (cols : list (K * nat)) : list K :=
  cols ≫= λ c, replicate c.2 c.1.

Definition year_spans (cols : list YearColumn.t) : list string :=
  cols ≫= λ c, replicate (YearColumn.size c) (YearColumn.year c).

Definition day_spans (cols : list DayColumn.t) : list (string * string) :=
  cols ≫= λ c, replicate (DayColumn.size c) (day_column_key c).

(** Equal keys stand next to each other: a key that comes again later
    comes again at once. *)
Fixpoint grouped {K : Type} (ks : list K) : Prop :=
  match ks with
  | [] => True
  | k :: ks' => (k ∈ ks' → head ks' = Some k) ∧ grouped ks'
  end.

(** ** Panels that make the grouper throw *)

Definition panel_malformed (panel : PanelData) : Prop :=
  type panel = "LabSet" ∧
  Exists (λ entry, members entry = None) (entries panel).

(** ** useValidOfflineFormEncounters *)

Module OfflineForms.

Section OfflineForms.
Context {Form HtmlFormEntryForms Rest : Type}.

(** What [useFormEncounters] returns: [data], absent until the request
    is answered, and the other keys of the response, which the spread
    copies. *)
Record SWRResult : Type :=
  mkSWRResult { data : option (list Form); rest : Rest }.

Record ConfigObject : Type :=
  mkConfigObject { htmlFormEntryForms : HtmlFormEntryForms }.

Variable isValidOfflineFormEncounter : Form → HtmlFormEntryForms → bool.
Variable useFormEncounters : unit → SWRResult.
Variable useConfig : unit → ConfigObject.

Definition useValidOfflineFormEncounters (_ : unit) : SWRResult :=
  let formEncountersSwr := useFormEncounters tt in
  let config := useConfig tt in
  {| rest := rest formEncountersSwr;
     data :=
       filter
         (λ form,
            isValidOfflineFormEncounter form (htmlFormEntryForms config)
            = true)
       <$> data formEncountersSwr |}.

End OfflineForms.

End OfflineForms.

(** ** FormsDashboard *)

Module FormsDashboard.

Section FormsDashboard.
Context {FhirPatient Visit FormsSection HtmlFormEntryForm FetchError : Type}.

Record FormsDashboardProps : Type :=
  mkProps { patientUuid : string; patient : FhirPatient; isOffline : bool }.

(** The object that takes the place of the [patient] prop, line 23. *)
Record Patient : Type := mkPatient { id : string }.

(** What [useFormsToDisplay] returns. *)
Record FormsToDisplay : Type :=
  mkFormsToDisplay {
    isValidating : bool;
    data : option (list FormsSection);
    error : option FetchError
  }.

(** The props of one [FormsList], with its [key]. *)
Record FormsListProps : Type :=
  mkFormsListProps {
    list_patientUuid : string;
    list_patient : Patient;
    visit : Visit;
    formsSection : FormsSection;
    searchTerm : string;
    pageSize : option nat;
    htmlFormEntryForms : option (list HtmlFormEntryForm);
    key : nat
  }.

Inductive Element : Type :=
| WidgetCard (children : list FormsListProps)
| DataTableSkeleton (role : string)
| EmptyTile (content : string).

Variable t : string → string → string.
Variable useVisitOrOfflineVisit : string → Visit.
Variable useFormsToDisplay : string → bool → FormsToDisplay.

(** One render, lines 17-59.  [htmlFormEntryForms] is the state cell that
    starts as [null] and is set once the configuration is there;
    [searchTerm] is a state cell that nothing ever sets. *)
Definition FormsDashboard (props : FormsDashboardProps)
    (htmlFormEntryForms : option (list HtmlFormEntryForm)) : Element :=
  let patientUuid := patientUuid props in
  let currentVisit := useVisitOrOfflineVisit patientUuid in
  let forms := useFormsToDisplay patientUuid (isOffline props) in
  let searchTerm := "" in
  let patient := {| id := patientUuid |} in
  match data forms with
  | Some data =>
      WidgetCard
        (imap
           (λ i formsSection,
              {| list_patientUuid := patientUuid;
                 list_patient := patient;
                 visit := currentVisit;
                 formsSection := formsSection;
                 searchTerm := searchTerm;
                 pageSize := None;
                 htmlFormEntryForms := htmlFormEntryForms;
                 key := i |})
           data)
  | None =>
      if isValidating forms
      then DataTableSkeleton "progressbar"
      else EmptyTile (t "noFormsAvailable" "There are no forms to display")
  end.

End FormsDashboard.

End FormsDashboard.

(** ** More sample data *)

Module SampleMore.

(** The two tests of [Sample.tests], each wrapped in a lab set of its
    own. *)
Definition singleSets : list ObsRecord :=
  [ Sample.labSet "2023-01-05T08:00"
      [Sample.leaf "Sodium" "2023-01-05T08:00"];
    Sample.labSet "2023-01-05T09:30"
      [Sample.leaf "Glucose" "2023-01-05T09:30"] ].


Definition chemistry : PanelData :=
  mkPanelData "uuid-chemistry" "LabSet" Sample.labSets.

Definition tests : PanelData :=
  mkPanelData "uuid-tests" "Test" Sample.tests.

(** A lab set panel one entry of which is a bare observation. *)
Definition broken : PanelData :=
  mkPanelData "uuid-broken" "LabSet"
    (Sample.labSets ++ [Sample.leaf "Sodium" "2023-07-01T08:00"]).

(** An upstream hook whose patient has a malformed panel between two
    sound ones. *)
Definition fetchBroken (patientUuid : string) : Fetch.t :=
  {| Fetch.sortedObs :=
       Some [("Chemistry", chemistry); ("Broken", broken); ("Tests", tests)];
     Fetch.loaded := true;
     Fetch.error := None |}.

End SampleMore.

(** * Proofs *)

(** ** Counting by key *)

Section TallyFacts.
Context {K : Type} `{EqDecision K}.
Implicit Types (k : K) (ks : list K) (cols : list (K * nat)).

Lemma elem_of_first_occurrences k ks : k ∈ first_occurrences ks ↔ k ∈ ks.
Proof.
  induction ks as [|k0 ks IH]; simpl; [done|].
  rewrite !elem_of_cons, list_elem_of_filter, IH.
  destruct (decide (k = k0)); naive_solver.
Qed.

Lemma NoDup_first_occurrences ks : NoDup (first_occurrences ks).
Proof.
  induction ks as [|k0 ks IH]; simpl; [constructor|].
  constructor; [|by apply NoDup_filter].
  rewrite list_elem_of_filter. naive_solver.
Qed.

Lemma first_occurrences_snoc ks k :
  first_occurrences (ks ++ [k]) =
  if decide (k ∈ ks) then first_occurrences ks
  else first_occurrences ks ++ [k].
Proof.
  induction ks as [|k0 ks IH]; simpl; [done|].
  rewrite IH. destruct (decide (k ∈ ks)) as [Hin|Hin].
  - rewrite decide_True by (by right). done.
  - rewrite filter_app. destruct (decide (k = k0)) as [->|Hne].
    + rewrite decide_True by left.
      rewrite filter_cons_False by naive_solver.
      by rewrite filter_nil, app_nil_r.
    + rewrite decide_False by (rewrite elem_of_cons; naive_solver).
      by rewrite filter_cons_True by done.
Qed.

Lemma occurrences_snoc k ks k' :
  occurrences k (ks ++ [k']) =
  if decide (k' = k) then S (occurrences k ks) else occurrences k ks.
Proof.
  unfold occurrences. rewrite filter_app, length_app.
  destruct (decide (k' = k)).
  - rewrite filter_cons_True by done. simpl. lia.
  - rewrite filter_cons_False by done. simpl. lia.
Qed.

Lemma occurrences_not_elem_of k ks : k ∉ ks → occurrences k ks = 0.
Proof.
  intros Hk. unfold occurrences.
  induction ks as [|k0 ks IH]; [done|].
  rewrite not_elem_of_cons in Hk. destruct Hk as [? ?].
  rewrite filter_cons_False by naive_solver. auto.
Qed.

Lemma merged_keys ks : (merged ks).*1 = first_occurrences ks.
Proof.
  unfold merged. rewrite <- list_fmap_compose.
  generalize (first_occurrences ks) as l.
  induction l as [|k l IH]; csimpl; [done|]. by rewrite IH.
Qed.

Lemma find_or_create_merged k ks :
  find_or_create k (merged ks) = merged (ks ++ [k]).
Proof.
  unfold find_or_create. rewrite merged_keys.
  unfold merged. rewrite first_occurrences_snoc.
  destruct (decide (k ∈ ks)) as [Hin|Hin].
  - rewrite decide_True by (by apply elem_of_first_occurrences).
    rewrite <- list_fmap_compose.
    apply list_fmap_ext. intros _ k' _. simpl.
    rewrite occurrences_snoc.
    destruct (decide (k' = k)) as [->|?].
    + by rewrite decide_True.
    + by rewrite decide_False by naive_solver.
  - rewrite decide_False by (by rewrite elem_of_first_occurrences).
    rewrite fmap_app. simpl. f_equal.
    + apply list_fmap_ext. intros i k' Hk'. rewrite occurrences_snoc.
      rewrite decide_False; [done|]. intros ->.
      apply Hin, elem_of_first_occurrences. by eapply list_elem_of_lookup_2.
    + rewrite occurrences_snoc, decide_True by done.
      by rewrite occurrences_not_elem_of.
Qed.

Lemma elem_of_merged (c : K * nat) ks :
  c ∈ merged ks ↔ c.1 ∈ ks ∧ c.2 = occurrences c.1 ks.
Proof.
  unfold merged. rewrite list_elem_of_fmap. split.
  - intros (k & -> & Hk).
    apply (proj1 (elem_of_first_occurrences k ks)) in Hk. by split.
  - destruct c as [k count]. simpl. intros [Hk ->].
    exists k. by rewrite elem_of_first_occurrences.
Qed.

Lemma find_first_or_push_unique k cols :
  NoDup cols.*1 → find_first_or_push k cols = find_or_create k cols.
Proof.
  intros Hnd. unfold find_first_or_push, find_or_create, Columns.bump_found.
  destruct (list_find _ cols) as [[i c]|] eqn:Hfind.
  - apply list_find_Some in Hfind as (Hi & Hc & _).
    rewrite decide_True.
    2:{ apply list_elem_of_fmap. exists c. split; [done|].
        by eapply list_elem_of_lookup_2. }
    apply list_eq. intros j. rewrite list_lookup_fmap.
    destruct (decide (i = j)) as [<-|Hij].
    + rewrite list_lookup_alter_eq, Hi. simpl.
      rewrite decide_True by done. by destruct c.
    + rewrite list_lookup_alter_ne by done.
      destruct (cols !! j) as [c'|] eqn:Hj; [|done]. simpl.
      rewrite decide_False; [done|]. intros Hk. apply Hij.
      apply (NoDup_lookup _ i j k Hnd); rewrite list_lookup_fmap.
      * by rewrite Hi; simpl; rewrite Hc.
      * by rewrite Hj; simpl; rewrite Hk.
  - apply list_find_None in Hfind.
    rewrite decide_False; [done|].
    intros (c & Hc & Hin)%list_elem_of_fmap.
    rewrite Forall_forall in Hfind. by apply (Hfind c).
Qed.

Lemma find_first_or_push_merged k ks :
  find_first_or_push k (merged ks) = merged (ks ++ [k]).
Proof.
  rewrite find_first_or_push_unique.
  - apply find_or_create_merged.
  - rewrite merged_keys. apply NoDup_first_occurrences.
Qed.

Lemma scan_merged ks : scan ks = merged ks.
Proof.
  unfold scan. induction ks as [|k ks IH] using rev_ind; [done|].
  by rewrite foldl_snoc, IH, find_or_create_merged.
Qed.

End TallyFacts.

(** ** parseTime: the columns as key counts *)

Lemma year_column_view (cols : list YearColumn.t) :
  year_column <$> (year_view <$> cols) = cols.
Proof.
  rewrite <- list_fmap_compose. rewrite <- (list_fmap_id cols) at 2.
  apply list_fmap_ext. by intros _ [] _.
Qed.

Lemma day_column_view (cols : list DayColumn.t) :
  day_column <$> (day_view <$> cols) = cols.
Proof.
  rewrite <- list_fmap_compose. rewrite <- (list_fmap_id cols) at 2.
  apply list_fmap_ext. by intros _ [] _.
Qed.

Lemma year_step_view year cols :
  year_view <$> Columns.year_step year cols =
  find_first_or_push year (year_view <$> cols).
Proof.
  unfold Columns.year_step, find_first_or_push, Columns.bump_found.
  rewrite list_find_fmap.
  destruct (list_find _ cols) as [[i c]|]; simpl.
  - apply list_fmap_alter. apply Forall_forall. by intros [].
  - by rewrite fmap_app.
Qed.

Lemma day_step_view year date cols :
  day_view <$> Columns.day_step year date cols =
  find_first_or_push (year, date) (day_view <$> cols).
Proof.
  unfold Columns.day_step, find_first_or_push, Columns.bump_found.
  rewrite list_find_fmap.
  rewrite (list_find_ext ((λ c, (year, date) = c.1) ∘ day_view)
             (λ c, date = DayColumn.day c ∧ year = DayColumn.year c)).
  2:{ intros [y d n]. simpl. naive_solver. }
  destruct (list_find _ cols) as [[i c]|]; simpl.
  - apply list_fmap_alter. apply Forall_forall. by intros [].
  - by rewrite fmap_app.
Qed.

Lemma sum_list_with_alter_S {C} (size : C → nat) (incr : C → C)
    (cols : list C) i :
  (∀ c, size (incr c) = S (size c)) →
  is_Some (cols !! i) →
  sum_list_with size (alter incr i cols) = S (sum_list_with size cols).
Proof.
  intros Hincr. revert i.
  induction cols as [|c cols IH]; intros [|i] [c' Hi]; simplify_eq/=.
  - by rewrite Hincr.
  - rewrite IH by eauto. lia.
Qed.

Lemma sum_sizes_bump_found {C} (p : C → Prop) `{∀ c, Decision (p c)}
    (size : C → nat) (incr : C → C) (cols cols' : list C) :
  (∀ c, size (incr c) = S (size c)) →
  Columns.bump_found p incr cols = Some cols' →
  sum_list_with size cols' = S (sum_list_with size cols).
Proof.
  intros Hincr. unfold Columns.bump_found.
  destruct (list_find p cols) as [[i c]|] eqn:Hfind; intros; simplify_eq.
  apply list_find_Some in Hfind as (Hi & _).
  apply sum_list_with_alter_S; eauto.
Qed.

Lemma sum_sizes_year_step year cols :
  sum_list_with YearColumn.size (Columns.year_step year cols) =
  S (sum_list_with YearColumn.size cols).
Proof.
  unfold Columns.year_step.
  destruct (Columns.bump_found _ _ cols) as [cols'|] eqn:Hb.
  - eapply sum_sizes_bump_found; [|exact Hb]. done.
  - rewrite sum_list_with_app. simpl. lia.
Qed.

Lemma sum_sizes_day_step year date cols :
  sum_list_with DayColumn.size (Columns.day_step year date cols) =
  S (sum_list_with DayColumn.size cols).
Proof.
  unfold Columns.day_step.
  destruct (Columns.bump_found _ _ cols) as [cols'|] eqn:Hb.
  - eapply sum_sizes_bump_found; [|exact Hb]. done.
  - rewrite sum_list_with_app. simpl. lia.
Qed.

Section ParseTimeFacts.
Context `{DayJs}.
Implicit Types (ts : list string) (acc : TimeAcc).

Lemma parseTime_snoc_years ts t :
  yearColumns (parseTime (ts ++ [t])) =
  Columns.year_step (dayjs_year t) (yearColumns (parseTime ts)).
Proof. unfold parseTime. by rewrite foldl_snoc. Qed.

Lemma parseTime_snoc_days ts t :
  dayColumns (parseTime (ts ++ [t])) =
  Columns.day_step (dayjs_year t) (dayjs_DD_MMM t)
    (dayColumns (parseTime ts)).
Proof. unfold parseTime. by rewrite foldl_snoc. Qed.

Lemma parseTime_snoc_times ts t :
  timeColumns (parseTime (ts ++ [t])) =
  timeColumns (parseTime ts) ++ [dayjs_HH_mm t].
Proof. unfold parseTime. by rewrite foldl_snoc. Qed.

Lemma parseTime_years_merged ts :
  year_view <$> yearColumns (parseTime ts) = merged (year_key <$> ts).
Proof.
  induction ts as [|t ts IH] using rev_ind; [done|].
  rewrite parseTime_snoc_years, year_step_view, IH, fmap_app.
  apply find_first_or_push_merged.
Qed.

Lemma parseTime_days_merged ts :
  day_view <$> dayColumns (parseTime ts) = merged (day_key <$> ts).
Proof.
  induction ts as [|t ts IH] using rev_ind; [done|].
  rewrite parseTime_snoc_days, day_step_view, IH, fmap_app.
  apply find_first_or_push_merged.
Qed.

Lemma parseTime_timeColumns ts :
  timeColumns (parseTime ts) = dayjs_HH_mm <$> ts.
Proof.
  induction ts as [|t ts IH] using rev_ind; [done|].
  by rewrite parseTime_snoc_times, IH, fmap_app.
Qed.

Lemma parseTime_year_sizes ts :
  sum_list_with YearColumn.size (yearColumns (parseTime ts)) = length ts.
Proof.
  induction ts as [|t ts IH] using rev_ind; [done|].
  rewrite parseTime_snoc_years, sum_sizes_year_step, IH, length_app.
  simpl. lia.
Qed.

Lemma parseTime_day_sizes ts :
  sum_list_with DayColumn.size (dayColumns (parseTime ts)) = length ts.
Proof.
  induction ts as [|t ts IH] using rev_ind; [done|].
  rewrite parseTime_snoc_days, sum_sizes_day_step, IH, length_app.
  simpl. lia.
Qed.

End ParseTimeFacts.

Section ParseTimeClaims.
Context `{DayJs}.
Implicit Types (ts : list string).

Lemma parseTime_years_NoDup ts :
  NoDup (YearColumn.year <$> yearColumns (parseTime ts)).
Proof.
  assert (YearColumn.year <$> yearColumns (parseTime ts)
          = (year_view <$> yearColumns (parseTime ts)).*1) as ->.
  { rewrite <- list_fmap_compose. by apply list_fmap_ext. }
  rewrite parseTime_years_merged, merged_keys.
  apply NoDup_first_occurrences.
Qed.

Lemma parseTime_days_NoDup ts :
  NoDup (day_column_key <$> dayColumns (parseTime ts)).
Proof.
  assert (day_column_key <$> dayColumns (parseTime ts)
          = (day_view <$> dayColumns (parseTime ts)).*1) as ->.
  { rewrite <- list_fmap_compose. by apply list_fmap_ext. }
  rewrite parseTime_days_merged, merged_keys.
  apply NoDup_first_occurrences.
Qed.

(** C1. [parseTime] builds [yearColumns] by a find-or-create scan keyed on
    the year string: a further timestamp raises the size of the column
    with an equal year when such a column exists anywhere in the list
    built so far, and appends a column of size 1 otherwise.  Hence the
    list has one column per distinct year, in order of first occurrence,
    sized by the number of timestamps of that year, wherever they stand
    in the input.  [dayColumns] obeys the same rule on the pair of year
    and day label. *)
Theorem parseTime_find_or_create ts :
  (∀ t, year_view <$> yearColumns (parseTime (ts ++ [t])) =
        find_or_create (year_key t)
          (year_view <$> yearColumns (parseTime ts))) ∧
  (∀ t, day_view <$> dayColumns (parseTime (ts ++ [t])) =
        find_or_create (day_key t)
          (day_view <$> dayColumns (parseTime ts))) ∧
  yearColumns (parseTime ts) = year_column <$> scan (year_key <$> ts) ∧
  dayColumns (parseTime ts) = day_column <$> scan (day_key <$> ts) ∧
  yearColumns (parseTime ts) = year_column <$> merged (year_key <$> ts) ∧
  dayColumns (parseTime ts) = day_column <$> merged (day_key <$> ts) ∧
  NoDup (YearColumn.year <$> yearColumns (parseTime ts)) ∧
  NoDup (day_column_key <$> dayColumns (parseTime ts)) ∧
  (∀ c, c ∈ yearColumns (parseTime ts) ↔
        YearColumn.year c ∈ year_key <$> ts ∧
        YearColumn.size c =
          occurrences (YearColumn.year c) (year_key <$> ts)) ∧
  (∀ c, c ∈ dayColumns (parseTime ts) ↔
        day_column_key c ∈ day_key <$> ts ∧
        DayColumn.size c = occurrences (day_column_key c) (day_key <$> ts)).
Proof.
  split_and!.
  - intros t. rewrite parseTime_snoc_years, year_step_view.
    apply find_first_or_push_unique.
    rewrite parseTime_years_merged, merged_keys.
    apply NoDup_first_occurrences.
  - intros t. rewrite parseTime_snoc_days, day_step_view.
    apply find_first_or_push_unique.
    rewrite parseTime_days_merged, merged_keys.
    apply NoDup_first_occurrences.
  - by rewrite scan_merged, <- parseTime_years_merged, year_column_view.
  - by rewrite scan_merged, <- parseTime_days_merged, day_column_view.
  - by rewrite <- parseTime_years_merged, year_column_view.
  - by rewrite <- parseTime_days_merged, day_column_view.
  - apply parseTime_years_NoDup.
  - apply parseTime_days_NoDup.
  - intros [y size].
    rewrite <- (year_column_view (yearColumns (parseTime ts))).
    rewrite parseTime_years_merged, list_elem_of_fmap.
    setoid_rewrite elem_of_merged. simpl. split.
    + intros ([k count] & [= -> ->] & ? & ?). done.
    + intros [? ?]. by exists (y, size).
  - intros [y d size].
    rewrite <- (day_column_view (dayColumns (parseTime ts))).
    rewrite parseTime_days_merged, list_elem_of_fmap.
    setoid_rewrite elem_of_merged. simpl. split.
    + intros ([[k1 k2] count] & [= -> -> ->] & ? & ?). done.
    + intros [? ?]. by exists ((y, d), size).
Qed.

(** C2. For a non-empty list of timestamps the result of [parseTime] has
    as many time columns as timestamps, the sizes of its year columns and
    of its day columns each add up to that number, and [sortedTimes] is
    the input itself. *)
Theorem parseTime_round_trip ts :
  ts ≠ [] →
  length (timeColumns (parseTime ts)) = length (sortedTimes (parseTime ts)) ∧
  length (sortedTimes (parseTime ts)) =
    sum_list_with YearColumn.size (yearColumns (parseTime ts)) ∧
  sum_list_with YearColumn.size (yearColumns (parseTime ts)) =
    sum_list_with DayColumn.size (dayColumns (parseTime ts)) ∧
  sortedTimes (parseTime ts) = ts.
Proof.
  intros _.
  rewrite parseTime_timeColumns, length_fmap.
  rewrite parseTime_year_sizes, parseTime_day_sizes.
  done.
Qed.

End ParseTimeClaims.

Section ParseTimeExamples.
Local Existing Instance IsoDayJs.iso_dayjs.

(** The fourth testable property on the timestamps of the specification,
    and a year that comes back after another one. *)
Example parseTime_spec_example :
  parseTime ["2023-01-05T08:00"; "2023-01-05T09:30"; "2023-06-20T10:00"] =
  {| yearColumns := [YearColumn.mk "2023" 3];
     dayColumns := [DayColumn.mk "2023" "05 - Jan" 2;
                    DayColumn.mk "2023" "20 - Jun" 1];
     timeColumns := ["08:00"; "09:30"; "10:00"];
     sortedTimes :=
       ["2023-01-05T08:00"; "2023-01-05T09:30"; "2023-06-20T10:00"] |}.
Proof. reflexivity. Qed.

Example parseTime_year_returns :
  yearColumns
    (parseTime ["2023-01-05T08:00"; "2022-03-01T09:30"; "2023-06-20T10:00"])
  = [YearColumn.mk "2023" 2; YearColumn.mk "2022" 1].
Proof. reflexivity. Qed.

Lemma parseTime_round_trip_witness :
  Sample.times ≠ [] ∧
  length (timeColumns (parseTime Sample.times)) =
    length (sortedTimes (parseTime Sample.times)) ∧
  length (sortedTimes (parseTime Sample.times)) =
    sum_list_with YearColumn.size (yearColumns (parseTime Sample.times)) ∧
  sum_list_with YearColumn.size (yearColumns (parseTime Sample.times)) =
    sum_list_with DayColumn.size (dayColumns (parseTime Sample.times)) ∧
  sortedTimes (parseTime Sample.times) = Sample.times.
Proof.
  split; [discriminate|].
  apply (parseTime_round_trip Sample.times). discriminate.
Defined.

End ParseTimeExamples.

(** ** parseEntries: arrays written by index *)

Section EntriesFacts.
Implicit Types (groups : list (list ObsRecord)) (group : list ObsRecord).
Implicit Types (entries : list ObsRecord) (m : ObsRecord) (n : string).
Implicit Types (rows : gmap string (list Slot)) (row : list Slot).
Implicit Types (i j index : nat).




(** ** parseEntries: the loops *)

Lemma forEach_place members index j rows :
  forEach (λ rows member _, Normal (place rows index member))
    members j rows
  = Normal (place_all index members rows).
Proof.
  revert j rows. induction members as [|m ms IH]; intros j rows; [done|].
  simpl. by rewrite IH.
Qed.

Lemma forEach_test entries index rows :
  forEach test_callback entries index rows =
  Normal (place_groups ((λ entry, [entry]) <$> entries) index rows).
Proof.
  revert index rows.
  induction entries as [|e entries IH]; intros index rows; [done|].
  simpl. by rewrite IH.
Qed.

Lemma forEach_labSet_present entries index rows :
  Forall (λ entry, is_Some (members entry)) entries →
  forEach labSet_callback entries index rows =
  Normal (place_groups ((λ entry, default [] (members entry)) <$> entries)
            index rows).
Proof.
  intros Hall. revert index rows.
  induction Hall as [|e entries [ms Hms] _ IH]; intros index rows; [done|].
  simpl. unfold labSet_callback at 1. rewrite Hms, forEach_place. simpl.
  by rewrite IH.
Qed.

Lemma forEach_labSet_absent entries index rows :
  Exists (λ entry, members entry = None) entries →
  forEach labSet_callback entries index rows = Throw TypeError.
Proof.
  revert index rows.
  induction entries as [|e entries IH]; intros index rows Hex.
  { by apply Exists_nil in Hex. }
  simpl. unfold labSet_callback at 1.
  destruct (members e) as [ms|] eqn:Hms; [|done].
  rewrite forEach_place. simpl. apply IH.
  apply Exists_cons in Hex as [?|?]; [congruence|done].
Qed.

Lemma labSet_members_dec entries :
  Forall (λ entry, is_Some (members entry)) entries ∨
  Exists (λ entry, members entry = None) entries.
Proof.
  induction entries as [|e entries [IH|IH]].
  - left. constructor.
  - destruct (members e) eqn:Hms.
    + left. constructor; [by rewrite Hms|done].
    + right. by left.
  - right. by right.
Qed.


(** ** parseEntries: one name at a time *)


















End EntriesFacts.

(** ** parseEntries: the result *)

Section EntriesResult.
Implicit Types (groups : list (list ObsRecord)) (group : list ObsRecord).
Implicit Types (entries : list ObsRecord) (m : ObsRecord) (n : string).
Implicit Types (rows : gmap string (list Slot)) (row : list Slot).
Implicit Types (i j index : nat).










Lemma parseEntries_LabSet_Normal entries :
  Forall (λ entry, is_Some (members entry)) entries →
  ∃ rows, parseEntries (Some entries) "LabSet" = Normal rows.
Proof.
  intros Hall. unfold parseEntries. simpl.
  rewrite forEach_labSet_present by done. eauto.
Qed.



End EntriesResult.

(** ** parseEntries: the properties *)

Section EntriesClaims.
Implicit Types (entries : list ObsRecord) (m : ObsRecord) (n : string).
Implicit Types (rows : gmap string (list Slot)) (row : list Slot).
Implicit Types (i j index : nat).








(** C6. For a kind other than 'LabSet' and 'Test' the grouper returns the
    empty mapping, whatever the entries are, and throws nothing. *)
Theorem parseEntries_other_kind (entries : option (list ObsRecord)) type :
  type ≠ "LabSet" → type ≠ "Test" →
  parseEntries entries type = Normal ∅.
Proof.
  intros HLabSet HTest. unfold parseEntries.
  rewrite !decide_False by done. simpl. by rewrite fmap_empty.
Qed.

(** C9. For kind 'LabSet' the grouper returns a mapping exactly when every
    top-level entry has its [members]; an entry without them makes the
    call throw a [TypeError], where skipping the entry as an empty group
    would have returned the rows of the other entries. *)
Theorem parseEntries_LabSet_members entries :
  ((∃ rows, parseEntries (Some entries) "LabSet" = Normal rows) ↔
   Forall (λ entry, is_Some (members entry)) entries) ∧
  (Exists (λ entry, members entry = None) entries →
   parseEntries (Some entries) "LabSet" = Throw TypeError) ∧
  (∀ before entry after,
     entries = before ++ entry :: after → members entry = None →
     parseEntries (Some entries) "LabSet" = Throw TypeError ∧
     ¬ ∃ rows, parseEntries (Some entries) "LabSet" = Normal rows).
Proof.
  assert (Exists (λ entry, members entry = None) entries →
          parseEntries (Some entries) "LabSet" = Throw TypeError) as Hthrow.
  { intros Hex. unfold parseEntries. simpl.
    by rewrite forEach_labSet_absent. }
  split_and!.
  - split; [|apply parseEntries_LabSet_Normal].
    intros [rows Hrows].
    destruct (labSet_members_dec entries) as [?|Hex]; [done|].
    rewrite Hthrow in Hrows by done. done.
  - done.
  - intros before entry after -> Hnone.
    assert (Exists (λ entry, members entry = None)
              (before ++ entry :: after)) as Hex.
    { apply Exists_app. right. by left. }
    rewrite Hthrow by done. split; [done|]. by intros [rows ?].
Qed.

End EntriesClaims.

(** ** The hooks *)

Section HookClaims.
Context `{DayJs}.
Variable usePatientResultsData : string → Fetch.t.

Lemma find_uuid_None (panelUuid : option string)
    (sortedObs : list (string * PanelData)) :
  Forall (λ p, Some (uuid p.2) ≠ panelUuid) sortedObs →
  find (λ p, bool_decide (Some (uuid p.2) = panelUuid)) sortedObs = None.
Proof.
  induction 1 as [|p sortedObs Hp _ IH]; simpl; [done|].
  by rewrite bool_decide_eq_false_2.
Qed.

(** C7. When the upstream fetch has loaded without an error and no panel
    of [sortedObs] has the requested uuid, [useTimelineData] returns an
    empty [parsedTime], the upstream [loaded] as it is, and the error
    'panel data missing'. *)
Theorem useTimelineData_panel_missing patientUuid panelUuid sortedObs :
  Fetch.sortedObs (usePatientResultsData patientUuid) = Some sortedObs →
  Fetch.loaded (usePatientResultsData patientUuid) = true →
  Fetch.error (usePatientResultsData patientUuid) = None →
  Forall (λ p, Some (uuid p.2) ≠ panelUuid) sortedObs →
  useTimelineData usePatientResultsData patientUuid panelUuid =
  Normal
    {| Result.data := NoParsedTime;
       Result.loaded := Fetch.loaded (usePatientResultsData patientUuid);
       Result.error := Some (mkError "panel data missing") |}.
Proof.
  intros Hobs Hloaded Herror Hmissing.
  unfold useTimelineData, useMemo. rewrite Hobs, Hloaded, Herror.
  by rewrite find_uuid_None.
Qed.

(** C8. While [sortedObs] is absent, [loaded] is false or [error] is set,
    each of the three hooks returns the upstream [loaded] and [error] as
    they are, next to a fixed placeholder: no rows are grouped and no time
    axis is built. *)
Theorem hooks_upstream_not_ready patientUuid panelUuid :
  Fetch.sortedObs (usePatientResultsData patientUuid) = None ∨
  Fetch.loaded (usePatientResultsData patientUuid) = false ∨
  is_Some (Fetch.error (usePatientResultsData patientUuid)) →
  useTimelineData usePatientResultsData patientUuid panelUuid =
  Normal
    {| Result.data := NoParsedTime;
       Result.loaded := Fetch.loaded (usePatientResultsData patientUuid);
       Result.error := Fetch.error (usePatientResultsData patientUuid) |} ∧
  useAllTimelineData usePatientResultsData patientUuid panelUuid =
  Normal
    {| Result.data := [NoParsedTime];
       Result.loaded := Fetch.loaded (usePatientResultsData patientUuid);
       Result.error := Fetch.error (usePatientResultsData patientUuid) |} ∧
  usePatientPanels usePatientResultsData patientUuid =
  Normal
    {| Result.data := PanelsPlaceholder [NoParsedTime];
       Result.loaded := Fetch.loaded (usePatientResultsData patientUuid);
       Result.error := Fetch.error (usePatientResultsData patientUuid) |}.
Proof.
  unfold useTimelineData, useAllTimelineData, usePatientPanels, useMemo.
  destruct (usePatientResultsData patientUuid)
    as [[sortedObs|] [|] [error|]]; simpl; try done.
  intros [?|[?|[? ?]]]; done.
Qed.

(** C10. [useAllTimelineData] does not read its [panelUuid]: for one
    upstream result any two values of the parameter give the same
    output.  The output is a function of the upstream triple alone: two
    calls whose upstream hooks return the same [sortedObs], [loaded] and
    [error] agree, whatever the patient and the panel asked for. *)
Theorem useAllTimelineData_ignores_panelUuid patientUuid panelUuid1
    panelUuid2 :
  useAllTimelineData usePatientResultsData patientUuid panelUuid1 =
  useAllTimelineData usePatientResultsData patientUuid panelUuid2 ∧
  ∀ (usePatientResultsData' : string → Fetch.t) patientUuid',
    Fetch.sortedObs (usePatientResultsData' patientUuid') =
      Fetch.sortedObs (usePatientResultsData patientUuid) →
    Fetch.loaded (usePatientResultsData' patientUuid') =
      Fetch.loaded (usePatientResultsData patientUuid) →
    Fetch.error (usePatientResultsData' patientUuid') =
      Fetch.error (usePatientResultsData patientUuid) →
    useAllTimelineData usePatientResultsData' patientUuid' panelUuid1 =
    useAllTimelineData usePatientResultsData patientUuid panelUuid2.
Proof.
  split; [reflexivity|].
  intros fetch' patientUuid' Hobs Hloaded Herror.
  unfold useAllTimelineData, useMemo.
  by rewrite Hobs, Hloaded, Herror.
Qed.

End HookClaims.

(** ** The properties on sample data *)

Section Examples.
Local Existing Instance IsoDayJs.iso_dayjs.


Example parseEntries_LabSet_sample :
  parseEntries (Some Sample.labSets) "LabSet" =
  Normal
    {[ "Sodium" :=
         [ Item (Sample.leaf "Sodium" "2023-01-05T08:00");
           Item (Sample.leaf "Sodium" "2023-01-05T09:30") ];
       "Glucose" :=
         [ Undefined;
           Item (Sample.leaf "Glucose" "2023-01-05T09:30");
           Undefined;
           Undefined;
           Item (Sample.leaf "Glucose" "2023-06-21T07:15") ];
       "Potassium" :=
         [ Undefined; Undefined; Undefined;
           Item (Sample.leaf "Potassium" "2023-06-20T10:00") ] ]}.
Proof. vm_compute. reflexivity. Qed.



Lemma parseEntries_other_kind_witness :
  "Panel" ≠ "LabSet" ∧ "Panel" ≠ "Test" ∧
  parseEntries (Some Sample.labSets) "Panel" = Normal ∅.
Proof.
  split; [discriminate|]. split; [discriminate|].
  apply (parseEntries_other_kind (Some Sample.labSets) "Panel");
    discriminate.
Defined.

Example parseEntries_LabSet_throws :
  parseEntries
    (Some (Sample.labSets ++ [Sample.leaf "Sodium" "2023-07-01T08:00"]))
    "LabSet"
  = Throw TypeError.
Proof. reflexivity. Qed.

Lemma useTimelineData_panel_missing_witness :
  Fetch.loaded (Sample.fetch "patient-1") = true ∧
  Fetch.error (Sample.fetch "patient-1") = None ∧
  useTimelineData Sample.fetch "patient-1" (Some "uuid-urine") =
  Normal
    {| Result.data := NoParsedTime;
       Result.loaded := true;
       Result.error := Some (mkError "panel data missing") |}.
Proof.
  split; [reflexivity|]. split; [reflexivity|].
  apply (useTimelineData_panel_missing Sample.fetch "patient-1"
           (Some "uuid-urine")
           [ ("Chemistry",
              mkPanelData "uuid-chemistry" "LabSet" Sample.labSets);
             ("Tests", mkPanelData "uuid-tests" "Test" Sample.tests) ]).
  - reflexivity.
  - reflexivity.
  - reflexivity.
  - repeat constructor; discriminate.
Defined.

Lemma hooks_upstream_not_ready_witness :
  Fetch.loaded (Sample.fetch "patient-3") = false ∧
  useTimelineData Sample.fetch "patient-3" (Some "uuid-tests") =
  Normal
    {| Result.data := NoParsedTime;
       Result.loaded := false;
       Result.error := None |} ∧
  useAllTimelineData Sample.fetch "patient-3" None =
  Normal
    {| Result.data := [NoParsedTime];
       Result.loaded := false;
       Result.error := None |} ∧
  usePatientPanels Sample.fetch "patient-3" =
  Normal
    {| Result.data := PanelsPlaceholder [NoParsedTime];
       Result.loaded := false;
       Result.error := None |}.
Proof.
  split; [reflexivity|].
  destruct (hooks_upstream_not_ready Sample.fetch "patient-3"
              (Some "uuid-tests")) as (Hone & _ & Hpanels).
  { right. left. reflexivity. }
  destruct (hooks_upstream_not_ready Sample.fetch "patient-3" None)
    as (_ & Hall & _).
  { right. left. reflexivity. }
  split; [exact Hone|]. split; [exact Hall|exact Hpanels].
Defined.

(** Without a [panelUuid] no panel is found either: [uuid === undefined]
    holds for none of them. *)
Example useTimelineData_no_panelUuid :
  useTimelineData Sample.fetch "patient-1" None =
  Normal
    {| Result.data := NoParsedTime;
       Result.loaded := true;
       Result.error := Some (mkError "panel data missing") |}.
Proof. reflexivity. Qed.

(** The all-panels hook lists the panels in the order of [sortedObs],
    whichever panel is asked for. *)
Example useAllTimelineData_panel_names :
  match useAllTimelineData Sample.fetch "patient-1" (Some "uuid-tests") with
  | Normal result =>
      (λ data, match data with
               | NoParsedTime => None
               | Timeline _ _ panelName => Some panelName
               end) <$> Result.data result
  | Throw _ => []
  end = [Some "Chemistry"; Some "Tests"].
Proof. vm_compute. reflexivity. Qed.

(** An upstream error is handed on as it is. *)
Example useAllTimelineData_upstream_error :
  useAllTimelineData Sample.fetch "patient-2" None =
  Normal
    {| Result.data := [NoParsedTime];
       Result.loaded := true;
       Result.error := Some (mkError "Request failed") |}.
Proof. reflexivity. Qed.

(** The single-panel hook on a panel that is there. *)
Example useTimelineData_tests :
  useTimelineData Sample.fetch "patient-1" (Some "uuid-tests") =
  Normal
    {| Result.data :=
         Timeline
           {| yearColumns := [YearColumn.mk "2023" 2];
              dayColumns := [DayColumn.mk "2023" "05 - Jan" 2];
              timeColumns := ["08:00"; "09:30"];
              sortedTimes := ["2023-01-05T08:00"; "2023-01-05T09:30"] |}
           {[ "Sodium" :=
                [Item (Sample.leaf "Sodium" "2023-01-05T08:00")];
              "Glucose" :=
                [Undefined;
                 Item (Sample.leaf "Glucose" "2023-01-05T09:30")] ]}
           "Tests";
       Result.loaded := true;
       Result.error := None |}.
Proof. vm_compute. reflexivity. Qed.

End Examples.

(** * Further properties *)

(** ** parseTime: spans and sizes *)

Section TallyMore.
Context {K : Type} `{EqDecision K}.
Implicit Types (k : K) (ks : list K) (cols : list (K * nat)).

Lemma occurrences_cons k k' ks :
  occurrences k (k' :: ks) =
  if decide (k' = k) then S (occurrences k ks) else occurrences k ks.
Proof.
  unfold occurrences. destruct (decide (k' = k)).
  - by rewrite filter_cons_True.
  - by rewrite filter_cons_False.
Qed.

Lemma occurrences_elem_of k ks : k ∈ ks → 1 ≤ occurrences k ks.
Proof.
  intros Hk. unfold occurrences.
  assert (k ∈ filter (λ k', k' = k) ks) as Hin
    by (by apply list_elem_of_filter).
  destruct (filter _ ks); [by apply not_elem_of_nil in Hin|simpl; lia].
Qed.

Lemma merged_tail k ks (l : list K) :
  (λ k', (k', occurrences k' (k :: ks))) <$> filter (λ k', k' ≠ k) l =
  filter (λ c, c.1 ≠ k) ((λ k', (k', occurrences k' ks)) <$> l).
Proof.
  induction l as [|k' l IH]; [done|].
  rewrite fmap_cons, !filter_cons. simpl.
  destruct (decide (k' ≠ k)) as [Hne|Heq].
  - rewrite fmap_cons, IH, occurrences_cons.
    by rewrite decide_False by naive_solver.
  - apply IH.
Qed.

Lemma merged_cons k ks :
  merged (k :: ks) =
  (k, S (occurrences k ks)) :: filter (λ c, c.1 ≠ k) (merged ks).
Proof.
  unfold merged. cbn [first_occurrences].
  rewrite fmap_cons, occurrences_cons, decide_True by done.
  f_equal. apply merged_tail.
Qed.

Lemma filter_key_absent k cols :
  k ∉ cols.*1 → filter (λ c, c.1 ≠ k) cols = cols.
Proof.
  induction cols as [|c cols IH]; [done|]. csimpl.
  rewrite not_elem_of_cons. intros [? ?].
  rewrite filter_cons_True by done. by rewrite IH.
Qed.

Lemma filter_key_twice k cols :
  filter (λ c, c.1 ≠ k) (filter (λ c, c.1 ≠ k) cols) =
  filter (λ c, c.1 ≠ k) cols.
Proof.
  induction cols as [|c cols IH]; [done|].
  destruct (decide (c.1 ≠ k)).
  - rewrite !filter_cons_True by done. by rewrite IH.
  - by rewrite !filter_cons_False by done.
Qed.

Lemma expand_cons k n cols :
  expand ((k, n) :: cols) = replicate n k ++ expand cols.
Proof. done. Qed.

Lemma expand_merged_grouped ks : grouped ks → expand (merged ks) = ks.
Proof.
  induction ks as [|k ks IH]; [done|]. intros [Hnext Hgr].
  specialize (IH Hgr). rewrite merged_cons, expand_cons.
  destruct (decide (k ∈ ks)) as [Hin|Hout].
  - specialize (Hnext Hin). destruct ks as [|k' ks']; [done|].
    simpl in Hnext. injection Hnext as ->.
    rewrite merged_cons, expand_cons in IH. rewrite merged_cons.
    rewrite filter_cons_False by (simpl; naive_solver).
    rewrite filter_key_twice, occurrences_cons, decide_True by done.
    rewrite replicate_S, <- app_comm_cons. by rewrite IH.
  - rewrite occurrences_not_elem_of by done. simpl.
    rewrite filter_key_absent; [by rewrite IH|].
    by rewrite merged_keys, elem_of_first_occurrences.
Qed.

Lemma elem_of_expand k cols : k ∈ expand cols → k ∈ cols.*1.
Proof.
  unfold expand. intros (c & Hk & Hc)%list_elem_of_bind.
  apply elem_of_replicate_inv in Hk as ->.
  by apply list_elem_of_fmap_2.
Qed.

Lemma grouped_replicate_app k n ks :
  k ∉ ks → grouped ks → grouped (replicate n k ++ ks).
Proof.
  intros Hk Hgr. induction n as [|n IH]; [done|].
  simpl. split; [|done]. destruct n as [|n]; simpl; [|done].
  by intros ?.
Qed.

Lemma grouped_expand cols : NoDup cols.*1 → grouped (expand cols).
Proof.
  induction cols as [|[k n] cols IH]; [done|]. rewrite fmap_cons.
  intros [Hk Hnd]%NoDup_cons. rewrite expand_cons.
  apply grouped_replicate_app; [|by apply IH].
  intros Hin. by apply Hk, elem_of_expand.
Qed.

Lemma expand_merged_iff ks : expand (merged ks) = ks ↔ grouped ks.
Proof.
  split; [|apply expand_merged_grouped].
  intros Heq. rewrite <- Heq. apply grouped_expand.
  rewrite merged_keys. apply NoDup_first_occurrences.
Qed.

Lemma length_filter_split (P : K → Prop) `{∀ k, Decision (P k)} k ks :
  P k →
  occurrences k ks + length (filter (λ k', P k' ∧ k' ≠ k) ks) =
  length (filter P ks).
Proof.
  intros HP. unfold occurrences.
  induction ks as [|k' ks IH]; [done|].
  rewrite !filter_cons.
  destruct (decide (k' = k)) as [->|Hne]; repeat case_decide;
    simpl; try lia; naive_solver.
Qed.

Lemma sum_merged_filter (P : K → Prop) `{∀ k, Decision (P k)} ks :
  sum_list_with snd (filter (λ c, P c.1) (merged ks)) =
  length (filter P ks).
Proof.
  revert P H. induction ks as [|k ks IH]; intros P HP; [done|].
  rewrite merged_cons, !filter_cons. simpl.
  rewrite list_filter_filter.
  pose proof (IH (λ k', P k' ∧ k' ≠ k) _) as IH'. simpl in IH'.
  destruct (decide (P k)) as [Hk|Hk]; simpl; rewrite IH'.
  - by rewrite <- (length_filter_split P k ks) by done.
  - f_equal. apply list_filter_iff. intros k'. naive_solver.
Qed.

End TallyMore.

Section ParseTimeMore.
Context `{DayJs}.
Implicit Types (ts : list string).

Lemma year_spans_view (cols : list YearColumn.t) :
  year_spans cols = expand (year_view <$> cols).
Proof.
  induction cols as [|c cols IH]; [done|].
  rewrite fmap_cons. unfold year_view at 1. rewrite expand_cons, <- IH.
  done.
Qed.

Lemma day_spans_view (cols : list DayColumn.t) :
  day_spans cols = expand (day_view <$> cols).
Proof.
  induction cols as [|c cols IH]; [done|].
  rewrite fmap_cons. unfold day_view at 1. rewrite expand_cons, <- IH.
  done.
Qed.

Lemma year_key_day_key ts : year_key <$> ts = (day_key <$> ts).*1.
Proof. rewrite <- list_fmap_compose. by apply list_fmap_ext. Qed.

Lemma parseTime_yearColumns ts :
  yearColumns (parseTime ts) = year_column <$> merged (year_key <$> ts).
Proof. by rewrite <- parseTime_years_merged, year_column_view. Qed.

Lemma parseTime_dayColumns ts :
  dayColumns (parseTime ts) = day_column <$> merged (day_key <$> ts).
Proof. by rewrite <- parseTime_days_merged, day_column_view. Qed.

(** X1. [timeColumns] is flat: its entry at a position is the time label
    of the timestamp at that position, also when labels repeat. *)
Theorem parseTime_time_labels ts :
  timeColumns (parseTime ts) = dayjs_HH_mm <$> sortedTimes (parseTime ts) ∧
  ∀ i, timeColumns (parseTime ts) !! i = dayjs_HH_mm <$> ts !! i.
Proof.
  rewrite parseTime_timeColumns. split; [done|].
  intros i. apply list_lookup_fmap.
Qed.

(** X2. No column is empty, and there are at most as many year columns
    as day columns and at most as many day columns as time columns. *)
Theorem parseTime_column_counts ts :
  Forall (λ c, 1 ≤ YearColumn.size c) (yearColumns (parseTime ts)) ∧
  Forall (λ c, 1 ≤ DayColumn.size c) (dayColumns (parseTime ts)) ∧
  length (yearColumns (parseTime ts)) ≤ length (dayColumns (parseTime ts)) ∧
  length (dayColumns (parseTime ts)) ≤ length (timeColumns (parseTime ts)).
Proof.
  rewrite parseTime_yearColumns, parseTime_dayColumns, parseTime_timeColumns.
  split_and!.
  - apply Forall_fmap, Forall_forall.
    intros [k n] [Hk Hn]%elem_of_merged. simpl in *. subst n.
    by apply occurrences_elem_of.
  - apply Forall_fmap, Forall_forall.
    intros [k n] [Hk Hn]%elem_of_merged. simpl in *. subst n.
    by apply occurrences_elem_of.
  - unfold merged. rewrite !length_fmap.
    rewrite <- (length_fmap fst (first_occurrences (day_key <$> ts))).
    apply submseteq_length, NoDup_submseteq.
    { apply NoDup_first_occurrences. }
    intros y Hy. apply (proj1 (elem_of_first_occurrences _ _)) in Hy.
    rewrite year_key_day_key in Hy.
    apply list_elem_of_fmap in Hy as (d & -> & Hd).
    apply list_elem_of_fmap_2.
    by apply (proj2 (elem_of_first_occurrences _ _)).
  - unfold merged. rewrite !length_fmap.
    rewrite <- (length_fmap day_key ts).
    apply submseteq_length, NoDup_submseteq.
    { apply NoDup_first_occurrences. }
    intros d. apply (proj1 (elem_of_first_occurrences _ _)).
Qed.

Lemma sum_day_sizes_of_year y (l : list ((string * string) * nat)) :
  sum_list_with DayColumn.size
    (filter (λ d, DayColumn.year d = y) (day_column <$> l)) =
  sum_list_with snd (filter (λ c, c.1.1 = y) l).
Proof.
  induction l as [|c l IH]; [done|].
  rewrite fmap_cons, !filter_cons. simpl.
  destruct (decide (c.1.1 = y)); simpl; by rewrite IH.
Qed.

Lemma occurrences_fst (y : string) (ds : list (string * string)) :
  length (filter (λ d, d.1 = y) ds) = occurrences y ds.*1.
Proof.
  unfold occurrences. induction ds as [|d ds IH]; [done|].
  rewrite fmap_cons, !filter_cons.
  destruct (decide (d.1 = y)); simpl; by rewrite IH.
Qed.

(** X3. The size of a year column is the sum of the sizes of the day
    columns of that year, and the day columns have the years of the year
    columns and no others. *)
Theorem parseTime_year_size_by_days ts :
  Forall
    (λ c, YearColumn.size c =
          sum_list_with DayColumn.size
            (filter (λ d, DayColumn.year d = YearColumn.year c)
               (dayColumns (parseTime ts))))
    (yearColumns (parseTime ts)) ∧
  ∀ y, y ∈ YearColumn.year <$> yearColumns (parseTime ts) ↔
       y ∈ DayColumn.year <$> dayColumns (parseTime ts).
Proof.
  rewrite parseTime_yearColumns, parseTime_dayColumns. split.
  - apply Forall_fmap, Forall_forall.
    intros [y n] [Hy Hn]%elem_of_merged. simpl in *. subst n.
    rewrite sum_day_sizes_of_year.
    pose proof (sum_merged_filter (λ k : string * string, k.1 = y)
                  (day_key <$> ts)) as Hsum.
    simpl in Hsum. rewrite Hsum, occurrences_fst.
    by rewrite year_key_day_key.
  - intros y. rewrite <- !list_fmap_compose.
    assert (∀ ks : list string,
              y ∈ (YearColumn.year ∘ year_column) <$> merged ks ↔ y ∈ ks)
      as ->.
    { intros ks. rewrite list_elem_of_fmap. split.
      - by intros (c & -> & [? ?]%elem_of_merged).
      - intros Hy. exists (y, occurrences y ks). split; [done|].
        by apply elem_of_merged. }
    rewrite year_key_day_key. split.
    + intros (d & -> & Hd)%list_elem_of_fmap.
      apply list_elem_of_fmap.
      exists (d, occurrences d (day_key <$> ts)). split; [done|].
      by apply elem_of_merged.
    + intros (c & -> & [Hc _]%elem_of_merged)%list_elem_of_fmap. simpl.
      by apply list_elem_of_fmap_2.
Qed.

(** X4. Written out by their sizes, the year columns give the year of
    every timestamp in input order exactly when equal years stand next to
    each other in the input; with a year that comes back after another
    one the header no longer lines up with the time columns.  The same
    holds for the day columns. *)
Theorem parseTime_spans_aligned ts :
  (year_spans (yearColumns (parseTime ts)) = year_key <$> ts ↔
   grouped (year_key <$> ts)) ∧
  (day_spans (dayColumns (parseTime ts)) = day_key <$> ts ↔
   grouped (day_key <$> ts)).
Proof.
  rewrite year_spans_view, day_spans_view.
  rewrite parseTime_years_merged, parseTime_days_merged.
  split; apply expand_merged_iff.
Qed.

End ParseTimeMore.

(** ** parseEntries: kinds and concatenation *)

Section EntriesMore.
Implicit Types (groups : list (list ObsRecord)) (group : list ObsRecord).
Implicit Types (entries more : list ObsRecord) (m : ObsRecord) (n : string).
Implicit Types (rows : gmap string (list Slot)) (row : list Slot).
Implicit Types (i j index : nat).

(** X5. A lab set whose entries each have exactly one member is grouped
    as the flat list of those members is grouped as tests. *)
Theorem parseEntries_LabSet_singletons entries (ms : list ObsRecord) :
  Forall2 (λ entry m, members entry = Some [m]) entries ms →
  parseEntries (Some entries) "LabSet" = parseEntries (Some ms) "Test".
Proof.
  intros Hsingle. unfold parseEntries. simpl.
  rewrite forEach_labSet_present, forEach_test.
  - do 3 f_equal. induction Hsingle as [|e m entries ms He _ IH]; [done|].
    rewrite !fmap_cons, IH, He. done.
  - induction Hsingle as [|e m entries ms He _ IH]; constructor; [|done].
    by rewrite He.
Qed.







End EntriesMore.

(** ** The hooks on loaded data *)

Section HooksMore.
Context `{DayJs}.
Variable usePatientResultsData : string → Fetch.t.
Implicit Types (sortedObs before after : list (string * PanelData)).
Implicit Types (panel : PanelData) (panelName u patientUuid : string).

Lemma parseEntries_malformed panel :
  panel_malformed panel →
  parseEntries (Some (entries panel)) (type panel) = Throw TypeError.
Proof.
  intros [Htype Hex]. rewrite Htype. unfold parseEntries. simpl.
  by rewrite forEach_labSet_absent.
Qed.

Lemma parseEntries_Normal_or_malformed panel :
  (∃ rows, parseEntries (Some (entries panel)) (type panel) = Normal rows) ∨
  panel_malformed panel.
Proof.
  unfold parseEntries, panel_malformed. simpl.
  destruct (decide (type panel = "LabSet")) as [Htype|?].
  - destruct (labSet_members_dec (entries panel)) as [Hall|Hex].
    + left. rewrite forEach_labSet_present by done. simpl. eauto.
    + by right.
  - left. case_decide; [rewrite forEach_test|]; simpl; eauto.
Qed.

Lemma parseEntries_wellformed panel :
  ¬ panel_malformed panel →
  ∃ rows, parseEntries (Some (entries panel)) (type panel) = Normal rows.
Proof. by destruct (parseEntries_Normal_or_malformed panel). Qed.

Lemma parseEntries_Normal_wellformed panel rows :
  parseEntries (Some (entries panel)) (type panel) = Normal rows →
  ¬ panel_malformed panel.
Proof. intros Hrows Hbad%parseEntries_malformed. congruence. Qed.

Lemma find_uuid_first before panelName panel after u :
  Forall (λ ob, uuid ob.2 ≠ u) before → uuid panel = u →
  find (λ p, bool_decide (Some (uuid p.2) = Some u))
    (before ++ (panelName, panel) :: after)
  = Some (panelName, panel).
Proof.
  intros Hbefore Hu. induction Hbefore as [|ob before Hob _ IH]; simpl.
  - by rewrite bool_decide_eq_true_2 by congruence.
  - by rewrite bool_decide_eq_false_2 by congruence.
Qed.

Lemma find_uuid_Some sortedObs (panelUuid : option string) panelName panel :
  find (λ p, bool_decide (Some (uuid p.2) = panelUuid)) sortedObs
  = Some (panelName, panel) →
  (panelName, panel) ∈ sortedObs ∧ Some (uuid panel) = panelUuid.
Proof.
  intros [Hin Hu]%find_some. split.
  - by apply list_elem_of_In.
  - by apply bool_decide_eq_true in Hu.
Qed.

Lemma find_uuid_elem_of sortedObs panelName panel :
  (panelName, panel) ∈ sortedObs →
  ∃ panelName' panel',
    find (λ p, bool_decide (Some (uuid p.2) = Some (uuid panel))) sortedObs
    = Some (panelName', panel') ∧
    uuid panel' = uuid panel.
Proof.
  intros Hin.
  destruct (find _ sortedObs) as [[panelName' panel']|] eqn:Hfind.
  - exists panelName', panel'. split; [done|].
    apply find_uuid_Some in Hfind as [_ ?]. congruence.
  - apply list_elem_of_In in Hin.
    pose proof (find_none _ _ Hfind _ Hin) as Hfalse. simpl in Hfalse.
    by rewrite bool_decide_eq_true_2 in Hfalse.
Qed.

(** X7. With the data loaded, the single-panel hook takes the first panel
    in iteration order whose uuid is the one asked for; the panels before
    and after it play no part.  It throws when that panel is a lab set
    with an entry without members, and otherwise returns the panel's
    time axis and rows under the panel's name, loaded and without an
    error. *)
Theorem useTimelineData_found patientUuid u before panelName panel after :
  Fetch.sortedObs (usePatientResultsData patientUuid) =
    Some (before ++ (panelName, panel) :: after) →
  Fetch.loaded (usePatientResultsData patientUuid) = true →
  Fetch.error (usePatientResultsData patientUuid) = None →
  Forall (λ ob, uuid ob.2 ≠ u) before →
  uuid panel = u →
  (panel_malformed panel →
   useTimelineData usePatientResultsData patientUuid (Some u) =
   Throw TypeError) ∧
  (¬ panel_malformed panel →
   ∃ rows,
     parseEntries (Some (entries panel)) (type panel) = Normal rows ∧
     useTimelineData usePatientResultsData patientUuid (Some u) =
     Normal
       {| Result.data :=
            Timeline (parseTime (effectiveDateTime <$> entries panel))
              rows panelName;
          Result.loaded := true;
          Result.error := None |}).
Proof.
  intros Hobs Hloaded Herror Hbefore Hu.
  unfold useTimelineData, useMemo. rewrite Hobs, Hloaded, Herror.
  rewrite (find_uuid_first _ _ _ _ _ Hbefore Hu). split.
  - intros Hbad. by rewrite parseEntries_malformed.
  - intros [rows Hrows]%parseEntries_wellformed.
    exists rows. split; [done|]. by rewrite Hrows.
Qed.

(** X15. Called without a [panelUuid] on loaded data, the single-panel
    hook finds no panel, whatever [sortedObs] holds: no uuid is
    [undefined].  It answers 'panel data missing' and parses nothing, so
    it cannot throw either. *)
Theorem useTimelineData_no_panelUuid_missing patientUuid sortedObs :
  Fetch.sortedObs (usePatientResultsData patientUuid) = Some sortedObs →
  Fetch.loaded (usePatientResultsData patientUuid) = true →
  Fetch.error (usePatientResultsData patientUuid) = None →
  useTimelineData usePatientResultsData patientUuid None =
  Normal
    {| Result.data := NoParsedTime;
       Result.loaded := true;
       Result.error := Some (mkError "panel data missing") |}.
Proof.
  intros Hobs Hloaded Herror.
  unfold useTimelineData, useMemo. rewrite Hobs, Hloaded, Herror.
  rewrite find_uuid_None; [done|].
  apply Forall_forall. by intros ob _.
Qed.



Lemma forEach_allTimelineData_Normal sortedObs index outData data :
  forEach allTimelineData_callback sortedObs index outData = Normal data →
  ∃ data',
    data = outData ++ data' ∧
    Forall2
      (λ ob d,
         ∃ rows,
           parseEntries (Some (entries ob.2)) (type ob.2) = Normal rows ∧
           d = Timeline (parseTime (effectiveDateTime <$> entries ob.2))
                 rows ob.1)
      sortedObs data'.
Proof.
  revert index outData.
  induction sortedObs as [|[panelName panel] sortedObs IH];
    intros index outData; simpl.
  - intros [= <-]. exists []. by rewrite app_nil_r.
  - destruct (parseEntries _ _) as [rows|] eqn:Hrows; simpl; [|done].
    intros (data' & -> & Hall)%IH.
    eexists (_ :: data'). rewrite <- app_assoc. split; [done|].
    constructor; [|done]. by exists rows.
Qed.

Lemma forEach_allTimelineData_malformed sortedObs index outData :
  Exists (λ ob, panel_malformed ob.2) sortedObs →
  forEach allTimelineData_callback sortedObs index outData = Throw TypeError.
Proof.
  revert index outData.
  induction sortedObs as [|[panelName panel] sortedObs IH];
    intros index outData Hex; simpl.
  { by apply Exists_nil in Hex. }
  destruct (parseEntries_Normal_or_malformed panel) as [[rows Hrows]|Hbad].
  - rewrite Hrows. simpl. apply IH.
    apply Exists_cons in Hex as [Hbad|?]; [|done].
    by apply parseEntries_Normal_wellformed in Hrows.
  - by rewrite parseEntries_malformed.
Qed.

Lemma forEach_allTimelineData_wellformed sortedObs index outData :
  Forall (λ ob, ¬ panel_malformed ob.2) sortedObs →
  ∃ data,
    forEach allTimelineData_callback sortedObs index outData = Normal data.
Proof.
  intros Hall. revert index outData.
  induction Hall as [|[panelName panel] sortedObs Hok _ IH];
    intros index outData; simpl; [eauto|].
  destruct (parseEntries_wellformed panel Hok) as [rows ->]. simpl.
  apply IH.
Qed.

(** X9. With the data loaded, the all-panels hook throws as soon as one
    panel is a lab set with an entry without members, whichever panel
    that is; otherwise it returns exactly one element per panel, in the
    iteration order of [sortedObs], each with the panel's own name, time
    axis and rows. *)
Theorem useAllTimelineData_loaded patientUuid panelUuid sortedObs :
  Fetch.sortedObs (usePatientResultsData patientUuid) = Some sortedObs →
  Fetch.loaded (usePatientResultsData patientUuid) = true →
  Fetch.error (usePatientResultsData patientUuid) = None →
  (Exists (λ ob, panel_malformed ob.2) sortedObs →
   useAllTimelineData usePatientResultsData patientUuid panelUuid =
   Throw TypeError) ∧
  (Forall (λ ob, ¬ panel_malformed ob.2) sortedObs →
   ∃ data,
     useAllTimelineData usePatientResultsData patientUuid panelUuid =
     Normal {| Result.data := data;
               Result.loaded := true;
               Result.error := None |} ∧
     length data = length sortedObs ∧
     ∀ i panelName panel,
       sortedObs !! i = Some (panelName, panel) →
       ∃ rows,
         parseEntries (Some (entries panel)) (type panel) = Normal rows ∧
         data !! i =
         Some (Timeline (parseTime (effectiveDateTime <$> entries panel))
                 rows panelName)).
Proof.
  intros Hobs Hloaded Herror.
  unfold useAllTimelineData, useMemo. rewrite Hobs, Hloaded, Herror.
  split.
  - intros Hex. by rewrite forEach_allTimelineData_malformed.
  - intros Hall.
    destruct (forEach_allTimelineData_wellformed sortedObs 0 [] Hall)
      as [data Hdata].
    rewrite Hdata. simpl. exists data. split; [done|].
    apply forEach_allTimelineData_Normal in Hdata
      as (data' & -> & Hdata'). simpl.
    split; [symmetry; by eapply Forall2_length|].
    intros i panelName panel Hi.
    destruct (Forall2_lookup_l _ _ _ _ _ Hdata' Hi)
      as (d & Hd & rows & Hrows & ->).
    by exists rows.
Qed.

(** X10. Where the all-panels hook returns, its element for a panel is
    the data the single-panel hook returns for that panel's uuid,
    provided no earlier panel has the same uuid. *)
Theorem useAllTimelineData_nth_single patientUuid panelUuid before
    panelName panel after resultAll :
  Fetch.sortedObs (usePatientResultsData patientUuid) =
    Some (before ++ (panelName, panel) :: after) →
  Fetch.loaded (usePatientResultsData patientUuid) = true →
  Fetch.error (usePatientResultsData patientUuid) = None →
  Forall (λ ob, uuid ob.2 ≠ uuid panel) before →
  useAllTimelineData usePatientResultsData patientUuid panelUuid
  = Normal resultAll →
  ∃ resultOne,
    useTimelineData usePatientResultsData patientUuid (Some (uuid panel))
    = Normal resultOne ∧
    Result.data resultAll !! length before = Some (Result.data resultOne) ∧
    Result.loaded resultOne = Result.loaded resultAll ∧
    Result.error resultOne = Result.error resultAll.
Proof.
  intros Hobs Hloaded Herror Hbefore.
  unfold useAllTimelineData, useTimelineData, useMemo.
  rewrite Hobs, Hloaded, Herror.
  rewrite (find_uuid_first _ _ _ _ _ Hbefore eq_refl).
  destruct (forEach _ _ _ _) as [data|] eqn:Hdata; simpl; [|done].
  intros [= <-]. simpl.
  apply forEach_allTimelineData_Normal in Hdata as (data' & -> & Hdata').
  destruct (Forall2_lookup_l _ _ _ (length before) (panelName, panel) Hdata')
    as (d & Hd & rows & Hrows & ->).
  { by rewrite list_lookup_middle. }
  simpl in *. rewrite Hrows. simpl. eexists. split; [done|]. by split.
Qed.

Lemma forEach_outData sortedObs index (outData : gmap string string) :
  forEach (λ outData kv _, Normal (<[kv.1 := uuid kv.2]> outData))
    sortedObs index outData
  = Normal (foldl (λ outData kv, <[kv.1 := uuid kv.2]> outData)
              outData sortedObs).
Proof.
  revert index outData.
  induction sortedObs as [|kv sortedObs IH]; intros index outData; [done|].
  simpl. by rewrite IH.
Qed.

Lemma lookup_outData sortedObs k :
  foldl (λ (outData : gmap string string) kv, <[kv.1 := uuid kv.2]> outData)
    ∅ sortedObs !! k
  = (λ ob, uuid ob.2) <$> last (filter (λ ob, ob.1 = k) sortedObs).
Proof.
  induction sortedObs as [|kv sortedObs IH] using rev_ind; [done|].
  rewrite foldl_snoc, filter_app, filter_cons, filter_nil.
  destruct (decide (kv.1 = k)) as [<-|Hne].
  - by rewrite lookup_insert_eq, last_snoc.
  - by rewrite lookup_insert_ne, app_nil_r.
Qed.

Lemma last_filter_key_unique sortedObs k panel :
  NoDup sortedObs.*1 → (k, panel) ∈ sortedObs →
  last (filter (λ ob, ob.1 = k) sortedObs) = Some (k, panel).
Proof.
  induction sortedObs as [|ob sortedObs IH] using rev_ind; intros Hnd Hin.
  { by apply not_elem_of_nil in Hin. }
  rewrite fmap_app in Hnd. apply NoDup_app in Hnd as (Hnd & Hdisj & _).
  rewrite filter_app, filter_cons, filter_nil.
  apply elem_of_app in Hin as [Hin|Hin%list_elem_of_singleton].
  - rewrite decide_False, app_nil_r; [by apply IH|].
    intros Hk. apply (Hdisj k).
    + by apply (list_elem_of_fmap_2 fst _ (k, panel)).
    + simpl. rewrite Hk. left.
  - subst ob. simpl. rewrite decide_True by done. apply last_snoc.
Qed.

(** X11. With the data loaded, the panel lookup never throws, whatever the
    panels hold.  It maps every panel name, and nothing else, to a uuid:
    the uuid of the panel of that name, and of the last such panel should
    a name come twice. *)
Theorem usePatientPanels_loaded patientUuid sortedObs :
  Fetch.sortedObs (usePatientResultsData patientUuid) = Some sortedObs →
  Fetch.loaded (usePatientResultsData patientUuid) = true →
  Fetch.error (usePatientResultsData patientUuid) = None →
  ∃ outData,
    usePatientPanels usePatientResultsData patientUuid =
    Normal {| Result.data := PanelUuids outData;
              Result.loaded := true;
              Result.error := None |} ∧
    (∀ k, outData !! k =
          (λ ob, uuid ob.2) <$> last (filter (λ ob, ob.1 = k) sortedObs)) ∧
    (∀ k, is_Some (outData !! k) ↔ k ∈ sortedObs.*1) ∧
    (NoDup sortedObs.*1 →
     ∀ k panel, (k, panel) ∈ sortedObs → outData !! k = Some (uuid panel)).
Proof.
  intros Hobs Hloaded Herror.
  unfold usePatientPanels, useMemo. rewrite Hobs, Hloaded, Herror.
  rewrite forEach_outData. simpl. eexists. split; [done|].
  split_and!.
  - apply lookup_outData.
  - intros k. rewrite lookup_outData, fmap_is_Some, last_is_Some. split.
    + intros Hne.
      destruct (filter (λ ob, ob.1 = k) sortedObs) as [|ob l] eqn:Hf;
        [done|].
      assert (ob ∈ filter (λ ob, ob.1 = k) sortedObs) as Hin
        by (rewrite Hf; left).
      apply list_elem_of_filter in Hin as [<- Hin].
      by apply list_elem_of_fmap_2.
    + intros (ob & -> & Hin)%list_elem_of_fmap Hnil.
      assert (ob ∈ filter (λ ob', ob'.1 = ob.1) sortedObs) as Hin'
        by (by apply list_elem_of_filter).
      rewrite Hnil in Hin'. by apply not_elem_of_nil in Hin'.
  - intros Hnd k panel Hin.
    by rewrite lookup_outData, (last_filter_key_unique _ _ panel).
Qed.

(** X12. A uuid handed out by the panel lookup is one the single-panel
    hook finds: asked for it, that hook never answers 'panel data
    missing'; it returns a panel's data, or throws on a malformed lab
    set. *)
Theorem usePatientPanels_uuid_found patientUuid result outData k u :
  usePatientPanels usePatientResultsData patientUuid = Normal result →
  Result.data result = PanelUuids outData →
  outData !! k = Some u →
  useTimelineData usePatientResultsData patientUuid (Some u)
  = Throw TypeError ∨
  ∃ pt rows panelName,
    useTimelineData usePatientResultsData patientUuid (Some u) =
    Normal {| Result.data := Timeline pt rows panelName;
              Result.loaded := true;
              Result.error := None |}.
Proof.
  unfold usePatientPanels, useTimelineData, useMemo.
  destruct (usePatientResultsData patientUuid)
    as [[sortedObs|] [|] [error|]]; simpl;
    try (intros [= <-]; simpl; discriminate).
  rewrite forEach_outData. simpl. intros [= <-]. simpl. intros [= <-].
  rewrite lookup_outData. intros Hlast.
  apply fmap_Some in Hlast as ([k' panel] & Hlast & ->). simpl.
  apply last_Some_elem_of, list_elem_of_filter in Hlast as [_ Hin].
  destruct (find_uuid_elem_of _ _ _ Hin)
    as (panelName' & panel' & -> & _).
  destruct (parseEntries _ _) as [rows|[]]; simpl; [right|by left].
  by eexists _, rows, panelName'.
Qed.

End HooksMore.

(** ** useValidOfflineFormEncounters *)

Section OfflineFormsFacts.
Context {Form HtmlFormEntryForms Rest : Type}.
Variable isValidOfflineFormEncounter : Form → HtmlFormEntryForms → bool.
Variable useFormEncounters :
  unit → @OfflineForms.SWRResult Form Rest.
Variable useConfig : unit → @OfflineForms.ConfigObject HtmlFormEntryForms.

(** X13. The hook keeps [data] absent while it is absent and leaves the
    other keys of the response alone.  Otherwise its [data] holds the
    valid encounters of the response and no others, in the order of the
    response, and running the hook on its own result changes nothing. *)
Theorem useValidOfflineFormEncounters_filters :
  let result :=
    OfflineForms.useValidOfflineFormEncounters isValidOfflineFormEncounter
      useFormEncounters useConfig tt in
  let valid form :=
    isValidOfflineFormEncounter form
      (OfflineForms.htmlFormEntryForms (useConfig tt)) = true in
  OfflineForms.rest result = OfflineForms.rest (useFormEncounters tt) ∧
  (OfflineForms.data result = None ↔
   OfflineForms.data (useFormEncounters tt) = None) ∧
  (∀ forms,
     OfflineForms.data (useFormEncounters tt) = Some forms →
     ∃ kept,
       OfflineForms.data result = Some kept ∧
       kept `sublist_of` forms ∧
       (∀ form, form ∈ kept ↔ form ∈ forms ∧ valid form) ∧
       (Forall valid forms → kept = forms)) ∧
  OfflineForms.useValidOfflineFormEncounters isValidOfflineFormEncounter
    (λ _, result) useConfig tt = result.
Proof.
  unfold OfflineForms.useValidOfflineFormEncounters. simpl. split_and!.
  - done.
  - apply fmap_None.
  - intros forms ->. simpl. eexists. split; [done|]. split_and!.
    + apply sublist_filter.
    + intros form. rewrite list_elem_of_filter. tauto.
    + intros Hall. induction Hall as [|form forms Hform _ IH]; [done|].
      by rewrite filter_cons_True, IH by done.
  - f_equal. destruct (OfflineForms.data (useFormEncounters tt)); [|done].
    simpl. f_equal. rewrite list_filter_filter.
    apply list_filter_iff. tauto.
Qed.

End OfflineFormsFacts.

(** ** FormsDashboard *)

Section FormsDashboardFacts.
Context {FhirPatient Visit FormsSection HtmlFormEntryForm FetchError : Type}.
Variable t : string → string → string.
Variable useVisitOrOfflineVisit : string → Visit.
Variable useFormsToDisplay :
  string → bool → @FormsDashboard.FormsToDisplay FormsSection FetchError.

(** X14. The dashboard shows the list of forms whenever [data] is there,
    be it empty, under revalidation or next to an error; without [data]
    it shows the skeleton while validating and the empty tile otherwise.
    The list has one [FormsList] per section, in order and keyed by
    position, and each is given a patient whose id is the [patientUuid]
    prop, whatever the [patient] prop holds. *)
Theorem FormsDashboard_renders
    (props : @FormsDashboard.FormsDashboardProps FhirPatient)
    (htmlFormEntryForms : option (list HtmlFormEntryForm)) :
  let forms :=
    useFormsToDisplay (FormsDashboard.patientUuid props)
      (FormsDashboard.isOffline props) in
  let element :=
    FormsDashboard.FormsDashboard t useVisitOrOfflineVisit
      useFormsToDisplay props htmlFormEntryForms in
  (∀ sections,
     FormsDashboard.data forms = Some sections →
     ∃ children,
       element = FormsDashboard.WidgetCard children ∧
       length children = length sections ∧
       ∀ i section,
         sections !! i = Some section →
         ∃ child,
           children !! i = Some child ∧
           FormsDashboard.formsSection child = section ∧
           FormsDashboard.key child = i ∧
           FormsDashboard.id (FormsDashboard.list_patient child) =
             FormsDashboard.patientUuid props ∧
           FormsDashboard.htmlFormEntryForms child = htmlFormEntryForms) ∧
  (FormsDashboard.data forms = None →
   FormsDashboard.isValidating forms = true →
   element = FormsDashboard.DataTableSkeleton "progressbar") ∧
  (FormsDashboard.data forms = None →
   FormsDashboard.isValidating forms = false →
   element =
   FormsDashboard.EmptyTile
     (t "noFormsAvailable" "There are no forms to display")) ∧
  (∀ (patient' : FhirPatient),
     FormsDashboard.FormsDashboard t useVisitOrOfflineVisit
       useFormsToDisplay
       (FormsDashboard.mkProps (FormsDashboard.patientUuid props) patient'
          (FormsDashboard.isOffline props))
       htmlFormEntryForms
     = element).
Proof.
  unfold FormsDashboard.FormsDashboard. simpl. split_and!.
  - intros sections ->. eexists. split; [done|].
    split; [apply length_imap|].
    intros i section Hi. eexists. rewrite list_lookup_imap, Hi. done.
  - by intros -> ->.
  - by intros -> ->.
  - done.
Qed.

End FormsDashboardFacts.

(** ** The further properties on sample data *)

Section MoreExamples.
Local Existing Instance IsoDayJs.iso_dayjs.

Lemma labSets_members :
  ¬ Exists (λ entry, members entry = None) Sample.labSets.
Proof.
  intros Hex. unfold Sample.labSets in Hex.
  repeat (apply Exists_cons in Hex as [Hex|Hex]; [discriminate Hex|]).
  by apply Exists_nil in Hex.
Qed.

Lemma chemistry_wellformed : ¬ panel_malformed SampleMore.chemistry.
Proof. intros [_ Hex]. by apply labSets_members. Qed.

Lemma tests_wellformed : ¬ panel_malformed SampleMore.tests.
Proof. by intros [? _]. Qed.

Lemma broken_malformed : panel_malformed SampleMore.broken.
Proof. split; [done|]. apply Exists_app. right. by left. Qed.

Lemma parseEntries_LabSet_singletons_witness :
  Forall2 (λ entry m, members entry = Some [m])
    SampleMore.singleSets Sample.tests ∧
  parseEntries (Some SampleMore.singleSets) "LabSet" =
  parseEntries (Some Sample.tests) "Test".
Proof.
  assert (Forall2 (λ entry m, members entry = Some [m])
            SampleMore.singleSets Sample.tests) as Hsingle
    by (repeat constructor).
  split; [exact Hsingle|].
  exact (parseEntries_LabSet_singletons _ _ Hsingle).
Defined.


Lemma useTimelineData_found_witness :
  Forall (λ ob : string * PanelData, uuid ob.2 ≠ "uuid-tests")
    [("Chemistry", SampleMore.chemistry); ("Broken", SampleMore.broken)] ∧
  ∃ rows,
    parseEntries (Some Sample.tests) "Test" = Normal rows ∧
    useTimelineData SampleMore.fetchBroken "patient-1" (Some "uuid-tests") =
    Normal
      {| Result.data :=
           Timeline (parseTime (effectiveDateTime <$> Sample.tests))
             rows "Tests";
         Result.loaded := true;
         Result.error := None |}.
Proof.
  assert (Forall (λ ob : string * PanelData, uuid ob.2 ≠ "uuid-tests")
            [("Chemistry", SampleMore.chemistry);
             ("Broken", SampleMore.broken)]) as Hbefore
    by (repeat constructor; discriminate).
  split; [exact Hbefore|].
  destruct (useTimelineData_found SampleMore.fetchBroken "patient-1"
              "uuid-tests"
              [("Chemistry", SampleMore.chemistry);
               ("Broken", SampleMore.broken)]
              "Tests" SampleMore.tests [])
    as [_ Hok]; [reflexivity..|exact Hbefore|reflexivity|].
  exact (Hok tests_wellformed).
Defined.

Lemma useTimelineData_no_panelUuid_missing_witness :
  Fetch.loaded (SampleMore.fetchBroken "patient-1") = true ∧
  useTimelineData SampleMore.fetchBroken "patient-1" None =
  Normal
    {| Result.data := NoParsedTime;
       Result.loaded := true;
       Result.error := Some (mkError "panel data missing") |}.
Proof.
  split; [reflexivity|].
  apply (useTimelineData_no_panelUuid_missing SampleMore.fetchBroken
           "patient-1"
           [("Chemistry", SampleMore.chemistry);
            ("Broken", SampleMore.broken);
            ("Tests", SampleMore.tests)]); reflexivity.
Defined.


Lemma useAllTimelineData_loaded_witness :
  useAllTimelineData SampleMore.fetchBroken "patient-1" None
  = Throw TypeError ∧
  ∃ data,
    useAllTimelineData Sample.fetch "patient-1" None =
    Normal {| Result.data := data;
              Result.loaded := true;
              Result.error := None |} ∧
    length data = 2.
Proof.
  split.
  - destruct (useAllTimelineData_loaded SampleMore.fetchBroken "patient-1"
                None
                [("Chemistry", SampleMore.chemistry);
                 ("Broken", SampleMore.broken);
                 ("Tests", SampleMore.tests)])
      as [Hthrow _]; [reflexivity..|].
    apply Hthrow. right. left. exact broken_malformed.
  - destruct (useAllTimelineData_loaded Sample.fetch "patient-1" None
                [("Chemistry", SampleMore.chemistry);
                 ("Tests", SampleMore.tests)])
      as [_ Hok]; [reflexivity..|].
    destruct Hok as (data & Hdata & Hlen & _).
    { repeat constructor;
        [exact chemistry_wellformed|exact tests_wellformed]. }
    by exists data.
Defined.

Lemma useAllTimelineData_nth_single_witness :
  ∃ resultAll resultOne,
    useAllTimelineData Sample.fetch "patient-1" None = Normal resultAll ∧
    useTimelineData Sample.fetch "patient-1" (Some "uuid-tests")
    = Normal resultOne ∧
    Result.data resultAll !! 1 = Some (Result.data resultOne).
Proof.
  eexists _. 
  edestruct (useAllTimelineData_nth_single Sample.fetch "patient-1" None
               [("Chemistry", SampleMore.chemistry)]
               "Tests" SampleMore.tests [])
    as (resultOne & Hone & Hnth & _);
    [reflexivity|reflexivity|reflexivity| |reflexivity|].
  { repeat constructor. discriminate. }
  exists resultOne. split; [reflexivity|]. by split.
Defined.

Lemma usePatientPanels_loaded_witness :
  NoDup ["Chemistry"; "Broken"; "Tests"] ∧
  ∃ outData,
    usePatientPanels SampleMore.fetchBroken "patient-1" =
    Normal {| Result.data := PanelUuids outData;
              Result.loaded := true;
              Result.error := None |} ∧
    outData !! "Broken" = Some "uuid-broken" ∧
    outData !! "Urine" = None.
Proof.
  assert (NoDup ["Chemistry"; "Broken"; "Tests"]) as Hnd
    by (repeat constructor; set_solver).
  split; [exact Hnd|].
  destruct (usePatientPanels_loaded SampleMore.fetchBroken "patient-1"
              [("Chemistry", SampleMore.chemistry);
               ("Broken", SampleMore.broken);
               ("Tests", SampleMore.tests)])
    as (outData & Hresult & Hlast & Hdom & Huniq); [reflexivity..|].
  exists outData. split; [exact Hresult|]. split.
  - apply (Huniq Hnd "Broken" SampleMore.broken). set_solver.
  - apply eq_None_not_Some. rewrite Hdom. set_solver.
Defined.

Lemma usePatientPanels_uuid_found_witness :
  useTimelineData SampleMore.fetchBroken "patient-1" (Some "uuid-broken")
  = Throw TypeError ∨
  ∃ pt rows panelName,
    useTimelineData SampleMore.fetchBroken "patient-1" (Some "uuid-broken") =
    Normal {| Result.data := Timeline pt rows panelName;
              Result.loaded := true;
              Result.error := None |}.
Proof.
  eapply (usePatientPanels_uuid_found SampleMore.fetchBroken "patient-1"
            _ _ "Broken" "uuid-broken").
  - reflexivity.
  - reflexivity.
  - vm_compute. reflexivity.
Defined.

End MoreExamples.
